(** * viewflow.flow.start: the start node of a flow, its view decorator and
      its form-tracking activation.

    A shallow embedding of [viewflow/flow/start.py].  Python objects that the
    module mutates ([Start] nodes) live in a store indexed by references, so
    that [return self] and aliasing are visible; calls into collaborators the
    module does not define (the user model, the management form, the
    successor nodes, the [warnings] module) are recorded in a log. *)

From stdpp Require Import base option list strings gmap.

Open Scope string_scope.
Open Scope list_scope.

(** ** Python results *)

Inductive exn : Type :=
  | TypeError (msg : string)
  | AttributeError (msg : string)
  | DoesNotExist
  | MultipleObjectsReturned
  | FlowRuntimeError (msg : string).

Inductive result (A : Type) : Type :=
  | Ok (a : A)
  | Raise (e : exn).
Arguments Ok {A} a.
Arguments Raise {A} e.

(** A computation over a mutable state [S]; an exception keeps the state
    reached when it was raised. *)
Definition M (S A : Type) : Type := S -> result A * S.

Definition ret {S A} (a : A) : M S A := fun s => (Ok a, s).
Definition raise {S A} (e : exn) : M S A := fun s => (Raise e, s).
Definition bind {S A B} (m : M S A) (k : A -> M S B) : M S B :=
  fun s => match m s with
           | (Ok a, s') => k a s'
           | (Raise e, s') => (Raise e, s')
           end.
Definition gets {S A} (f : S -> A) : M S A := fun s => (Ok (f s), s).
Definition modify {S} (f : S -> S) : M S unit := fun s => (Ok tt, f s).

Notation "'let*' x ':=' m 'in' k" := (bind m (fun x => k))
  (at level 10, x name, m at level 100, k at level 200, only parsing).

(** ** Python values reaching the start node *)

Definition loc := nat.
Definition kwargs := gmap string string.

(** A class is known by its name and the names of its ancestors. *)
Record pyclass : Type := mkClass { cls_name : string; cls_bases : list string }.

Definition issubclass (c : pyclass) (base : string) : bool :=
  bool_decide (base ∈ cls_name c :: cls_bases c).

(** [class StartViewActivation(StartActivation)] *)
Definition StartViewActivation_cls : pyclass :=
  mkClass "StartViewActivation" ["StartActivation"].

(** The values [Available] and [Permission] store: [None], a predicate over
    users (a function: always true in a condition), lookup keywords (a dict:
    true when it is not empty) or a permission name (a str: true when it is
    not empty). *)
Inductive pyval (P : Type) : Type :=
  | PyNone
  | PyFunc (f : P -> bool)
  | PyDict (kw : kwargs)
  | PyStr (s : string).
Arguments PyNone {P}.
Arguments PyFunc {P} f.
Arguments PyDict {P} kw.
Arguments PyStr {P} s.

Definition truthy {P} (v : pyval P) : bool :=
  match v with
  | PyNone => false
  | PyFunc _ => true
  | PyDict kw => negb (bool_decide (kw = ∅))
  | PyStr s => negb (bool_decide (s = ""))
  end.

Definition callable {P} (v : pyval P) : bool :=
  match v with PyFunc _ => true | _ => false end.

Definition type_name {P} (v : pyval P) : string :=
  match v with
  | PyNone => "NoneType"
  | PyFunc _ => "function"
  | PyDict _ => "dict"
  | PyStr _ => "str"
  end.

(** ** Collaborators from django.contrib.auth *)

Class Django : Type := {
  principal : Type;
  (** [owner == user] *)
  user_eqb : principal -> principal -> bool;
  (** [get_user_model()._default_manager.get], called with the keywords [kw] *)
  default_manager_get : kwargs -> result principal;
  (** [user.has_perm(perm)] *)
  user_has_perm : principal -> pyval principal -> bool
}.

Section Flow.
Context `{Django}.

(** What [Start.__init__] receives as [view_or_cls]. *)
Inductive view_arg : Type :=
  | ViewFunction (fname : string)
  | ViewClass (c : pyclass)
  | ViewObject (descr : string).

Record Start : Type := mkStart {
  name : option string;
  activation_cls : option pyclass;
  _view : option string;
  _view_cls : option pyclass;
  _view_args : option kwargs;
  _activate_next : list loc;
  _owner : pyval principal;
  _owner_permission : pyval principal;
  _assign_view : option (option string)
}.

(** An instance of a view class, a function or bound method, the request
    and the positional arguments a view is called with. *)
Record instance : Type := mkInstance { inst_ref : loc; inst_cls : pyclass }.

Inductive pyfunc : Type :=
  | Function (fname : string)
  | BoundMethod (fname : string) (receiver : instance).

Record HttpRequest : Type := mkRequest { req_user : principal; req_POST : kwargs }.

Inductive pyarg : Type :=
  | ArgRequest (r : HttpRequest)
  | ArgActivation (a : loc).

(** What a view returns is whatever the call it stands for returns. *)
Inductive response : Type :=
  | ResponseOf (f : pyfunc) (args : list pyarg) (kw : kwargs).

Record Edge : Type := mkEdge { src : loc; dst : loc; edge_class : string }.

Inductive event : Type :=
  | EvOwnerCall (user : principal)
  | EvManagerGet (kw : kwargs)
  | EvPermissionCall (user : principal)
  | EvUserHasPerm (user : principal) (perm : pyval principal)
  | EvActivate (node : loc) (prev_activation : loc)
  | EvWarn (msg : string) (category : string)
  | EvConstruct (c : pyclass) (obj : loc)
  | EvInitialize (activation : loc) (flow_task : loc)
  | EvCallView (f : pyfunc) (args : list pyarg) (kw : kwargs).

Record world : Type := mkWorld {
  w_nodes : gmap loc Start;
  w_next : loc;
  w_log : list event
}.

Definition emit (e : event) : M world unit :=
  modify (fun w => mkWorld (w_nodes w) (w_next w) (w_log w ++ [e])).

Definition get_node (self : loc) : M world Start :=
  fun w => match w_nodes w !! self with
           | Some s => (Ok s, w)
           | None => (Raise (AttributeError "no such object"), w)
           end.

Definition set_node (self : loc) (s : Start) : M world unit :=
  modify (fun w => mkWorld (<[self := s]> (w_nodes w)) (w_next w) (w_log w)).

(** [f(user)] for a stored restriction [f]. *)
Definition call_predicate (ev : principal -> event) (f : pyval principal)
    (user : principal) : M world bool :=
  match f with
  | PyFunc p => let* _ := emit (ev user) in ret (p user)
  | _ => raise (TypeError ("'" +:+ type_name f +:+ "' object is not callable"))
  end.

(** [**v] in a call of [callee]. *)
Definition unpack_kwargs (callee : string) (v : pyval principal)
    : M world kwargs :=
  match v with
  | PyDict kw => ret kw
  | _ => raise (TypeError (callee +:+ " argument after ** must be a mapping, not "
                           +:+ type_name v))
  end.

Definition manager_get (kw : kwargs) : M world principal :=
  let* _ := emit (EvManagerGet kw) in
  match default_manager_get kw with
  | Ok u => ret u
  | Raise e => raise e
  end.

Definition has_perm (self : loc) (user : principal) : M world bool :=
  let* s := get_node self in
  if truthy (_owner s) then
    let* hit := (if callable (_owner s)
            then call_predicate EvOwnerCall (_owner s) user
            else ret false) in
    if hit then ret true
    else
      let* kw := unpack_kwargs "get()" (_owner s) in
      let* owner := manager_get kw in
      ret (user_eqb owner user)
  else if truthy (_owner_permission s) then
    let* hit := (if callable (_owner_permission s)
            then call_predicate EvPermissionCall (_owner_permission s) user
            else ret false) in
    if hit then ret true
    else
      let* _ := emit (EvUserHasPerm user (_owner_permission s)) in
      ret (user_has_perm user (_owner_permission s))
  else ret true.

(** *** Construction *)

(** Modelled from the spec: [Event.__init__] of viewflow.flow.base, which is
    not part of this module.  The node's activation type is the one passed
    to it, and the class default is kept when none is passed. *)
Definition Event_init (class_default : option pyclass)
    (activation_cls : option pyclass) : option pyclass :=
  match activation_cls with
  | Some c => Some c
  | None => class_default
  end.

(** [Start.__init__(view_or_cls, activation_cls, **kwargs)]: the fields of the
    new node, or the error of [issubclass] on something that is no class. *)
Definition Start_init (view_or_cls : option view_arg)
    (activation_cls : option pyclass) (kw : kwargs) : result Start :=
  let node v vc va acls :=
    mkStart None (Event_init (Some StartViewActivation_cls) acls)
            v vc va [] PyNone PyNone None in
  match view_or_cls with
  | Some (ViewFunction f) => Ok (node (Some f) None None activation_cls)
  | Some (ViewClass c) =>
      Ok (node None (Some c) (Some kw)
               (if issubclass c "StartActivation" then Some c
                else activation_cls))
  | Some (ViewObject _) => Raise (TypeError "issubclass() arg 1 must be a class")
  | None => Ok (node None None None activation_cls)
  end.

(** [Start(view_or_cls, activation_cls, **kwargs)]: a new object in the
    store. *)
Definition Start_new (view_or_cls : option view_arg)
    (activation_cls : option pyclass) (kw : kwargs) : M world loc :=
  match Start_init view_or_cls activation_cls kw with
  | Ok s =>
      fun w => (Ok (w_next w),
                mkWorld (<[w_next w := s]> (w_nodes w)) (S (w_next w)) (w_log w))
  | Raise e => raise e
  end.

(** *** Wiring *)

Definition with_activate_next (l : list loc) (s : Start) : Start :=
  mkStart (name s) (activation_cls s) (_view s) (_view_cls s) (_view_args s)
          l (_owner s) (_owner_permission s) (_assign_view s).

Definition with_owner (o : pyval principal) (s : Start) : Start :=
  mkStart (name s) (activation_cls s) (_view s) (_view_cls s) (_view_args s)
          (_activate_next s) o (_owner_permission s) (_assign_view s).

Definition with_permission (p : pyval principal) (v : option string)
    (s : Start) : Start :=
  mkStart (name s) (activation_cls s) (_view s) (_view_cls s) (_view_args s)
          (_activate_next s) (_owner s) p (Some v).

Definition Activate (self node : loc) : M world loc :=
  let* s := get_node self in
  let* _ := set_node self (with_activate_next (_activate_next s ++ [node]) s) in
  ret self.

Definition Available (self : loc) (owner : pyval principal)
    (owner_kwargs : kwargs) : M world loc :=
  let* s := get_node self in
  let* _ := set_node self
              (with_owner (if truthy owner then owner else PyDict owner_kwargs) s) in
  ret self.

Definition Permission (self : loc) (permission : pyval principal)
    (assign_view : option string) : M world loc :=
  let* s := get_node self in
  let* _ := set_node self (with_permission permission assign_view s) in
  ret self.

(** Chained [Activate] calls, each on the node the previous one returned. *)
Fixpoint Activate_chain (self : loc) (nodes : list loc) : M world loc :=
  match nodes with
  | [] => ret self
  | n :: rest => let* r := Activate self n in Activate_chain r rest
  end.

(** *** Outgoing edges *)

Definition _outgoing (self : loc) : M world (list Edge) :=
  let* s := get_node self in
  ret (map (fun next_node => mkEdge self next_node "next") (_activate_next s)).

Fixpoint for_each {A} (f : A -> M world unit) (l : list A) : M world unit :=
  match l with
  | [] => ret tt
  | x :: rest => let* _ := f x in for_each f rest
  end.

Definition activate_next (self : loc) (self_activation : loc) (kw : kwargs)
    : M world unit :=
  let* edges := _outgoing self in
  for_each (fun outgoing => emit (EvActivate (dst outgoing) self_activation))
           edges.

(** *** flow_start_view *)

(** [activation] is [None] or a view instance; an instance is a plain object
    and so true in [if self.activation:]. *)
Record StartViewDecorator : Type :=
  mkDecorator { func : pyfunc; activation : option instance }.

(** [@flow_start_view()] applied to [f]. *)
Definition flow_start_view (f : pyfunc) : StartViewDecorator :=
  mkDecorator f None.

Definition isinstance (i : instance) (base : string) : bool :=
  issubclass (inst_cls i) base.

(** [f.__get__(instance, type)]: a function is bound to the instance, a bound
    method stays as it is. *)
Definition func__get__ (f : pyfunc) (i : instance) : pyfunc :=
  match f with
  | Function n => BoundMethod n i
  | BoundMethod n r => BoundMethod n r
  end.

Definition __get__ (self : StartViewDecorator) (inst : option instance)
    : StartViewDecorator :=
  match inst with
  | None => self
  | Some i =>
      mkDecorator (func__get__ (func self) i)
                  (if isinstance i "StartActivation" then Some i else None)
  end.

Definition format_name (n : option string) : string :=
  match n with Some s => s | None => "None" end.

Definition warning_text (n : option string) : string :=
  "View already implemens StartActivation interface. Flow task `"
  +:+ format_name n +:+ "` activation_cls ignored".

(** [cls()]: a new object of class [cls]. *)
Definition construct (c : pyclass) : M world loc :=
  fun w => (Ok (w_next w),
            mkWorld (w_nodes w) (S (w_next w))
                    (w_log w ++ [EvConstruct c (w_next w)])).

Definition call_view (f : pyfunc) (args : list pyarg) (kw : kwargs)
    : M world response :=
  let* _ := emit (EvCallView f args kw) in
  ret (ResponseOf f args kw).

Definition __call__ (self : StartViewDecorator) (request : HttpRequest)
    (flow_task : loc) (kw : kwargs) : M world response :=
  let* ft := get_node flow_task in
  let* _ := (if bool_decide (is_Some (activation self))
                && bool_decide (is_Some (activation_cls ft))
             then emit (EvWarn (warning_text (name ft)) "RuntimeWarning")
             else ret tt) in
  match activation self with
  | Some a =>
      let* _ := emit (EvInitialize (inst_ref a) flow_task) in
      call_view (func self) [ArgRequest request] kw
  | None =>
      let* cls := match activation_cls ft with
                  | Some c => ret c
                  | None => raise (TypeError "'NoneType' object is not callable")
                  end in
      let* a := construct cls in
      let* _ := emit (EvInitialize a flow_task) in
      call_view (func self) [ArgRequest request; ArgActivation a] kw
  end.

(** *** Reading the log *)

Definition empty_world : world := mkWorld ∅ 0 [].

(** The world [w] after the events [evs]. *)
Definition log_to (w : world) (evs : list event) : world :=
  mkWorld (w_nodes w) (w_next w) (w_log w ++ evs).

(** Events in which a permission restriction is evaluated. *)
Definition is_permission_event (e : event) : bool :=
  match e with
  | EvPermissionCall _ | EvUserHasPerm _ _ => true
  | _ => false
  end.

Definition is_warning (e : event) : bool :=
  match e with EvWarn _ _ => true | _ => false end.

(** The warning [__call__] logs for a flow task, if it logs one. *)
Definition warning_if_configured (ft : Start) : list event :=
  match activation_cls ft with
  | Some _ => [EvWarn (warning_text (name ft)) "RuntimeWarning"]
  | None => []
  end.

End Flow.

(** ** StartViewActivation *)

(** A management form bound to submitted data and to a task record. *)
Record management_form_t : Type := mkForm {
  form_cls : pyclass;
  form_data : option kwargs;
  form_instance : option loc
}.

(** The form machinery of django.forms, which this module calls into. *)
Class Forms : Type := {
  (** [form.is_valid()] *)
  is_valid : management_form_t -> bool;
  (** [form.errors], as it is formatted into a message *)
  errors : management_form_t -> string;
  (** [form.save(commit=False)]: the record the form produces *)
  save_uncommitted : management_form_t -> loc
}.

Section Activation.
Context `{Forms}.

(** The flow class an initialised activation refers to. *)
Record flow_class : Type := mkFlow {
  flow_name : string;
  flow_management_form_cls : option pyclass
}.

Record StartViewActivation : Type := mkActivation {
  flow_cls : option flow_class;
  task : option loc;
  management_form : option management_form_t;
  management_form_cls : option pyclass
}.

Inductive act_event : Type :=
  | AevPrepared
  | AevFormInit (f : management_form_t)
  | AevIsValid (f : management_form_t)
  | AevSave (f : management_form_t) (commit : bool)
  | AevTaskSave (t : loc).

(** An event that writes to the database. *)
Definition is_commit (e : act_event) : bool :=
  match e with
  | AevSave _ commit => commit
  | AevTaskSave _ => true
  | _ => false
  end.

Record act_world : Type := mkActWorld {
  a_self : StartViewActivation;
  a_log : list act_event
}.

Definition act_emit (e : act_event) : M act_world unit :=
  modify (fun w => mkActWorld (a_self w) (a_log w ++ [e])).

Definition with_management_form (f : management_form_t)
    (a : StartViewActivation) : StartViewActivation :=
  mkActivation (flow_cls a) (task a) (Some f) (management_form_cls a).

Definition with_task (t : loc) (a : StartViewActivation) : StartViewActivation :=
  mkActivation (flow_cls a) (Some t) (management_form a) (management_form_cls a).

Definition set_management_form (f : management_form_t) : M act_world unit :=
  modify (fun w => mkActWorld (with_management_form f (a_self w)) (a_log w)).

Definition set_task (t : loc) : M act_world unit :=
  modify (fun w => mkActWorld (with_task t (a_self w)) (a_log w)).

(** [StartViewActivation.__init__(management_form_cls, **kwargs)] on an
    activation the base class has set up with [flow_cls] and [task]. *)
Definition StartViewActivation_init (cls : option pyclass)
    (base_flow_cls : option flow_class) (base_task : option loc)
    : StartViewActivation :=
  mkActivation base_flow_cls base_task None cls.

Definition get_management_form_cls : M act_world (option pyclass) :=
  let* self := gets a_self in
  match management_form_cls self with
  | Some c => ret (Some c)
  | None =>
      match flow_cls self with
      | Some f => ret (flow_management_form_cls f)
      | None => raise (AttributeError
                  "'NoneType' object has no attribute 'management_form_cls'")
      end
  end.

(** The form type [prepare] resolves, when there is one. *)
Definition resolved_form_cls (a : StartViewActivation) : option pyclass :=
  match management_form_cls a with
  | Some c => Some c
  | None => flow_cls a ≫= flow_management_form_cls
  end.

(** Modelled from the spec: [StartActivation.prepare] of viewflow.activation,
    which is not part of this module.  It moves the activation from
    unprepared to prepared and leaves [self.task] bound to the record it was
    bound to. *)
Definition StartActivation_prepare : M act_world unit :=
  act_emit AevPrepared.

(** [management_form_cls(data=data, instance=task)] *)
Definition form_new (cls : option pyclass) (data : option kwargs)
    (inst : option loc) : M act_world management_form_t :=
  match cls with
  | Some c =>
      let f := mkForm c data inst in
      let* _ := act_emit (AevFormInit f) in ret f
  | None => raise (TypeError "'NoneType' object is not callable")
  end.

(** [if data:] for [None] or a dict of submitted fields. *)
Definition data_truthy (data : option kwargs) : bool :=
  match data with
  | Some d => negb (bool_decide (d = ∅))
  | None => false
  end.

Definition prepare (data : option kwargs) : M act_world unit :=
  let* _ := StartActivation_prepare in
  let* cls := get_management_form_cls in
  let* self := gets a_self in
  let* form := form_new cls data (task self) in
  let* _ := set_management_form form in
  if data_truthy data then
    let* _ := act_emit (AevIsValid form) in
    if negb (is_valid form) then
      raise (FlowRuntimeError ("Activation metadata is broken " +:+ errors form))
    else
      let* _ := act_emit (AevSave form false) in
      set_task (save_uncommitted form)
  else ret tt.

End Activation.

(** ** StartView and the rest of the module *)

(** How a call of the view ends: it returns, raises [PermissionDenied], or
    raises one of the errors of the start node and of the activation. *)
Inductive view_result (A : Type) : Type :=
  | Returned (a : A)
  | PermissionDenied
  | Raised (e : exn).
Arguments Returned {A} a.
Arguments PermissionDenied {A}.
Arguments Raised {A} e.

Section StartViewDefs.
Context `{Django} `{Forms}.

(** What [has_perm] answers and logs for the restrictions [o] and [p]: read
    off a run on a store that holds one node with these restrictions. *)
Definition has_perm_outcome (o p : pyval principal) (u : principal)
    : result bool * list event :=
  let run := has_perm 0 u
               (mkWorld {[ 0 := mkStart None None None None None [] o p None ]}
                        1 []) in
  (fst run, w_log (snd run)).

(** [request.POST or None] *)
Definition post_or_none (request : HttpRequest) : option kwargs :=
  if bool_decide (req_POST request = ∅) then None else Some (req_POST request).

(** The view at work: the store of the flow, and the activation the view
    is. *)
Record view_world : Type := mkViewWorld { v_flow : world; v_act : act_world }.

(** The body of [StartView.dispatch] on the view [self], whose [flow_task]
    is the node the decorator initialised it against.  The last call goes to
    [UpdateView.dispatch]. *)
Definition dispatch (self : instance) (flow_task : loc) (request : HttpRequest)
    (kw : kwargs) (v : view_world) : view_result response * view_world :=
  match has_perm flow_task (req_user request) (v_flow v) with
  | (Raise e, fw) => (Raised e, mkViewWorld fw (v_act v))
  | (Ok false, fw) => (PermissionDenied, mkViewWorld fw (v_act v))
  | (Ok true, fw) =>
      match prepare (post_or_none request) (v_act v) with
      | (Raise e, aw) => (Raised e, mkViewWorld fw aw)
      | (Ok _, aw) =>
          match call_view (BoundMethod "UpdateView.dispatch" self)
                          [ArgRequest request] kw fw with
          | (Ok r, fw') => (Returned r, mkViewWorld fw' aw)
          | (Raise e, fw') => (Raised e, mkViewWorld fw' aw)
          end
      end
  end.

(** [StartView.get_template_names] for a flow of the application
    [app_label]. *)
Definition get_template_names (app_label : string) : list string :=
  [app_label +:+ "/flow/start.html"; "viewflow/flow/start.html"].

End StartViewDefs.

(** ** Concrete collaborators, for running the model *)

(** Users are known by their username; [root] is a superuser, to whom
    [has_perm] grants everything, and [alice] holds [app.can_start]. *)
Definition demo_users : list string := ["root"; "alice"; "bob"].

Definition demo_manager_get (kw : kwargs) : result string :=
  match kw !! "username" with
  | Some n => if bool_decide (n ∈ demo_users) then Ok n else Raise DoesNotExist
  | None => Raise MultipleObjectsReturned
  end.

Definition demo_user_has_perm (u : string) (perm : pyval string) : bool :=
  if bool_decide (u = "root") then true
  else match perm with
       | PyStr p => bool_decide (u = "alice") && bool_decide (p = "app.can_start")
       | _ => false
       end.

Definition demo_django : Django :=
  {| principal := string;
     user_eqb := fun a b => bool_decide (a = b);
     default_manager_get := demo_manager_get;
     user_has_perm := demo_user_has_perm |}.

(** A form is valid when the submitted data carry a [started] field; the
    record it produces is numbered after the record it was bound to. *)
Definition demo_forms : Forms :=
  {| is_valid := fun f =>
       match form_data f with
       | Some d => bool_decide (is_Some (d !! "started"))
       | None => false
       end;
     errors := fun _ => "started: This field is required.";
     save_uncommitted := fun f =>
       match form_instance f with Some t => S t | None => 0 end |}.

Definition StartView_cls : pyclass :=
  mkClass "StartView" ["StartViewActivation"; "StartActivation"; "UpdateView"].

Definition TemplateView_cls : pyclass := mkClass "TemplateView" ["View"].

(** A node named [start] with the given restrictions and successors, alone
    in the store at reference 0. *)
Definition demo_node (owner permission : pyval string) (next : list loc)
    : @Start demo_django :=
  @mkStart demo_django (Some "start") (Some StartViewActivation_cls)
           None None None next owner permission None.

Definition demo_world (s : @Start demo_django) : @world demo_django :=
  @mkWorld demo_django {[ 0 := s ]} 1 [].

Definition owned_by_alice : pyval string := PyDict {[ "username" := "alice" ]}.
Definition can_start : pyval string := PyStr "app.can_start".

Definition demo_request : @HttpRequest demo_django :=
  @mkRequest demo_django "bob" ∅.

(** An instance of [StartView] and one of a view that is no activation. *)
Definition start_view_instance : instance := mkInstance 7 StartView_cls.
Definition template_view_instance : instance := mkInstance 8 TemplateView_cls.

(** The urlconf idiom [Start(StartView.as_view())]: the node gets a plain
    function and no activation type; the function builds a [StartView] per
    request and calls its decorated [dispatch] with the node. *)
Definition as_view_run : M (@world demo_django) response :=
  let* node := Start_new (Some (ViewFunction "StartView.as_view()")) None ∅ in
  let* view := construct StartView_cls in
  __call__ (__get__ (flow_start_view (Function "dispatch"))
                    (Some (mkInstance view StartView_cls)))
           demo_request node ∅.

Definition ManagementForm_cls : pyclass := mkClass "ActivationDataForm" ["ModelForm"].

(** An initialised activation of a flow with a management form, on task
    record 5. *)
Definition demo_activation : @act_world :=
  mkActWorld
    (StartViewActivation_init None
       (Some (mkFlow "HelloFlow" (Some ManagementForm_cls))) (Some 5))
    [].

Definition valid_data : option kwargs := Some {[ "started" := "2014-05-01" ]}.
Definition invalid_data : option kwargs := Some {[ "finished" := "2014-05-01" ]}.

(** More inputs: restrictions, requests and activations. *)
Definition alice_lookup : kwargs := {[ "username" := "alice" ]}.
Definition nobody_lookup : kwargs := {[ "username" := "mallory" ]}.
Definition only_alice : string -> bool := fun u => bool_decide (u = "alice").

Definition post_request (data : kwargs) : @HttpRequest demo_django :=
  @mkRequest demo_django "alice" data.

Definition demo_view_world (s : @Start demo_django)
    : @view_world demo_django :=
  @mkViewWorld demo_django (demo_world s) demo_activation.

Definition uninitialised_activation : @act_world :=
  mkActWorld (StartViewActivation_init None None None) [].

Definition bare_flow_activation : @act_world :=
  mkActWorld (StartViewActivation_init None (Some (mkFlow "BareFlow" None))
                                       (Some 5)) [].

Definition own_form_activation : @act_world :=
  mkActWorld (StartViewActivation_init (Some ManagementForm_cls) None (Some 5))
             [].

Definition two_node_world : @world demo_django :=
  @mkWorld demo_django
    (<[1 := demo_node PyNone can_start []]> {[ 0 := demo_node PyNone PyNone [] ]})
    2 [].

(** [Start(activation_cls=explicit)] served through a [StartView] instance:
    the node is built with the given explicit activation type (or none), a
    view instance is made for the request, and its decorated [dispatch] is
    called with the node. *)
Definition bound_view_run (explicit : option pyclass)
    : M (@world demo_django) response :=
  let* node := @Start_new demo_django None explicit ∅ in
  let* view := construct StartView_cls in
  __call__ (__get__ (flow_start_view (Function "dispatch"))
                    (Some (mkInstance view StartView_cls)))
           demo_request node ∅.

(** * Properties *)

Section FlowFacts.
Context `{Django}.

Lemma bind_ok {S A B} (m : M S A) (k : A -> M S B) (w w' : S) (a : A) :
  m w = (Ok a, w') -> bind m k w = k a w'.
Proof. intros Hm. unfold bind. by rewrite Hm. Qed.

Lemma bind_raise {S A B} (m : M S A) (k : A -> M S B) (w w' : S) (e : exn) :
  m w = (Raise e, w') -> bind m k w = (Raise e, w').
Proof. intros Hm. unfold bind. by rewrite Hm. Qed.

Lemma log_to_nil (w : world) : log_to w [] = w.
Proof. destruct w; unfold log_to; simpl. by rewrite app_nil_r. Qed.

Lemma get_node_ok (w : world) (self : loc) (s : Start) :
  w_nodes w !! self = Some s -> get_node self w = (Ok s, w).
Proof. intros Hs. unfold get_node. by rewrite Hs. Qed.

(** [has_perm] by the shape of the owner restriction. *)
Lemma has_perm_owner_predicate (w : world) (self : loc) (s : Start)
    (f : principal -> bool) (u : principal) :
  w_nodes w !! self = Some s -> _owner s = PyFunc f ->
  has_perm self u w =
    (if f u then Ok true
     else Raise (TypeError "get() argument after ** must be a mapping, not function"),
     log_to w [EvOwnerCall u]).
Proof.
  intros Hs Ho. unfold has_perm, bind. rewrite (get_node_ok _ _ _ Hs), Ho.
  simpl. by destruct (f u).
Qed.

Lemma has_perm_owner_lookup (w : world) (self : loc) (s : Start)
    (kw : kwargs) (u : principal) :
  w_nodes w !! self = Some s -> _owner s = PyDict kw -> kw <> ∅ ->
  has_perm self u w =
    (match default_manager_get kw with
     | Ok owner => Ok (user_eqb owner u)
     | Raise e => Raise e
     end, log_to w [EvManagerGet kw]).
Proof.
  intros Hs Ho Hkw. unfold has_perm, bind. rewrite (get_node_ok _ _ _ Hs), Ho.
  simpl. rewrite bool_decide_eq_false_2 by done. simpl.
  unfold manager_get, bind. simpl. by destruct (default_manager_get kw).
Qed.

Lemma has_perm_owner_str (w : world) (self : loc) (s : Start)
    (n : string) (u : principal) :
  w_nodes w !! self = Some s -> _owner s = PyStr n -> n <> "" ->
  has_perm self u w =
    (Raise (TypeError "get() argument after ** must be a mapping, not str"), w).
Proof.
  intros Hs Ho Hn. unfold has_perm, bind. rewrite (get_node_ok _ _ _ Hs), Ho.
  simpl. by rewrite bool_decide_eq_false_2 by done.
Qed.

(** [has_perm] when the owner restriction is not set. *)
Lemma has_perm_permission_predicate (w : world) (self : loc) (s : Start)
    (f : principal -> bool) (u : principal) :
  w_nodes w !! self = Some s -> truthy (_owner s) = false ->
  _owner_permission s = PyFunc f ->
  has_perm self u w =
    if f u then (Ok true, log_to w [EvPermissionCall u])
    else (Ok (user_has_perm u (PyFunc f)),
          log_to w [EvPermissionCall u; EvUserHasPerm u (PyFunc f)]).
Proof.
  intros Hs Ho Hp. unfold has_perm, bind.
  rewrite (get_node_ok _ _ _ Hs), Ho, Hp. simpl.
  destruct (f u); simpl; [done|]. unfold log_to. simpl.
  by rewrite <- app_assoc.
Qed.

Lemma Available_ok (w : world) (self : loc) (s : Start)
    (owner : pyval principal) (kw : kwargs) :
  w_nodes w !! self = Some s ->
  Available self owner kw w =
    (Ok self,
     mkWorld (<[self := with_owner (if truthy owner then owner else PyDict kw) s]>
                (w_nodes w))
             (w_next w) (w_log w)).
Proof.
  intros Hs. unfold Available. by rewrite (bind_ok _ _ _ _ _ (get_node_ok _ _ _ Hs)).
Qed.

Lemma Permission_ok (w : world) (self : loc) (s : Start)
    (p : pyval principal) (v : option string) :
  w_nodes w !! self = Some s ->
  Permission self p v w =
    (Ok self,
     mkWorld (<[self := with_permission p v s]> (w_nodes w))
             (w_next w) (w_log w)).
Proof.
  intros Hs. unfold Permission. by rewrite (bind_ok _ _ _ _ _ (get_node_ok _ _ _ Hs)).
Qed.

Lemma has_perm_unrestricted (w : world) (self : loc) (s : Start)
    (u : principal) :
  w_nodes w !! self = Some s -> truthy (_owner s) = false ->
  truthy (_owner_permission s) = false ->
  has_perm self u w = (Ok true, w).
Proof.
  intros Hs Ho Hp. unfold has_perm, bind.
  by rewrite (get_node_ok _ _ _ Hs), Ho, Hp.
Qed.

End FlowFacts.

(** ** Authorisation: [Start.has_perm] *)

Section HasPerm.
Context `{Django}.

(** A node can be wired only after it was built: running a method on the
    fresh node of [Start()] in the empty store. *)
Lemma Start_new_empty :
  Start_new None None ∅ empty_world =
    (Ok 0,
     mkWorld {[ 0 := mkStart None (Some StartViewActivation_cls) None None None
                             [] PyNone PyNone None ]} 1 []).
Proof. reflexivity. Qed.

(** C1, on the code: [Start().Available(lambda user: False).has_perm(u)]
    does not return [False].  The predicate is called, answers false, and the
    method goes on to unpack the predicate as lookup keywords, which raises
    [TypeError]; the user store is not reached. *)
Theorem has_perm_owner_predicate_false_raises (u : principal) :
  exists w,
    (let* n := Start_new None None ∅ in
     let* n := Available n (PyFunc (fun _ => false)) ∅ in
     has_perm n u) empty_world
    = (Raise (TypeError "get() argument after ** must be a mapping, not function"), w)
    /\ w_log w = [EvOwnerCall u].
Proof.
  eexists. split.
  - rewrite (bind_ok _ _ _ _ _ Start_new_empty).
    erewrite bind_ok by (by apply Available_ok).
    erewrite has_perm_owner_predicate;
      [ | simpl; apply lookup_insert_eq | reflexivity ].
    reflexivity.
  - reflexivity.
Qed.

(** The half of C1 the code keeps: a predicate that accepts the user is the
    answer. *)
Lemma has_perm_owner_predicate_true (w : world) (self : loc) (s : Start)
    (f : principal -> bool) (u : principal) :
  w_nodes w !! self = Some s -> _owner s = PyFunc f -> f u = true ->
  has_perm self u w = (Ok true, log_to w [EvOwnerCall u]).
Proof.
  intros Hs Ho Hf. rewrite (has_perm_owner_predicate _ _ _ _ _ Hs Ho).
  by rewrite Hf.
Qed.

(** C2, on the code: [Start().Permission(lambda user: False).has_perm(u)]
    consults [u.has_perm], handing it the predicate as if it were a
    permission name, and returns what [u.has_perm] answers. *)
Theorem has_perm_permission_predicate_false_delegates (u : principal) :
  let deny : pyval principal := PyFunc (fun _ => false) in
  exists w,
    (let* n := Start_new None None ∅ in
     let* n := Permission n deny None in
     has_perm n u) empty_world
    = (Ok (user_has_perm u deny), w)
    /\ w_log w = [EvPermissionCall u; EvUserHasPerm u deny].
Proof.
  intros deny. eexists. split.
  - rewrite (bind_ok _ _ _ _ _ Start_new_empty).
    erewrite bind_ok by (by apply Permission_ok).
    erewrite has_perm_permission_predicate;
      [ | simpl; apply lookup_insert_eq | reflexivity | reflexivity ].
    reflexivity.
  - reflexivity.
Qed.

(** C3: on a node whose owner restriction is set (true in [if self._owner]),
    [has_perm] emits no event of the permission restriction, whatever that
    restriction is (so also when one is configured): neither the permission
    predicate nor [user.has_perm] is called.  Its outcome and events are
    those of the same node with any other permission restriction in place of
    the configured one. *)
Theorem has_perm_owner_takes_precedence (w : world) (self : loc) (s : Start)
    (u : principal) :
  w_nodes w !! self = Some s ->
  truthy (_owner s) = true ->
  exists (r : result bool) (evs : list event),
    has_perm self u w = (r, log_to w evs)
    /\ Forall (fun e => is_permission_event e = false) evs
    /\ forall (p : pyval principal) (v : option string),
         let w' := mkWorld (<[self := with_permission p v s]> (w_nodes w))
                           (w_next w) (w_log w) in
         has_perm self u w' = (r, log_to w' evs).
Proof.
  intros Hs Ho.
  assert (Hs' : forall p v,
    w_nodes (mkWorld (<[self := with_permission p v s]> (w_nodes w))
                     (w_next w) (w_log w)) !! self
    = Some (with_permission p v s)) by (intros; simpl; apply lookup_insert_eq).
  destruct (_owner s) as [|f|kw|n] eqn:Eo; simpl in Ho.
  - discriminate.
  - exists (if f u then Ok true
            else Raise (TypeError "get() argument after ** must be a mapping, not function")),
           [EvOwnerCall u].
    split; [by apply (has_perm_owner_predicate _ _ s)|].
    split; [by repeat constructor|].
    intros p v w'.
    apply (has_perm_owner_predicate _ _ (with_permission p v s));
      [apply Hs' | exact Eo].
  - assert (kw <> ∅) as Hkw.
    { intros ->. by rewrite bool_decide_eq_true_2 in Ho. }
    exists (match default_manager_get kw with
            | Ok owner => Ok (user_eqb owner u)
            | Raise e => Raise e
            end), [EvManagerGet kw].
    split; [by apply (has_perm_owner_lookup _ _ s)|].
    split; [by repeat constructor|].
    intros p v w'.
    apply (has_perm_owner_lookup _ _ (with_permission p v s));
      [apply Hs' | exact Eo | exact Hkw].
  - assert (n <> "") as Hn.
    { intros ->. by rewrite bool_decide_eq_true_2 in Ho. }
    exists (Raise (TypeError "get() argument after ** must be a mapping, not str")), [].
    rewrite log_to_nil.
    split; [by apply (has_perm_owner_str _ _ s n)|].
    split; [constructor|].
    intros p v w'. rewrite log_to_nil.
    apply (has_perm_owner_str _ _ (with_permission p v s) n);
      [apply Hs' | exact Eo | exact Hn].
Qed.

(** C4: a node with neither an owner nor a permission restriction (both
    still [None], as the constructor leaves them) lets every user in, and
    consults nobody. *)
Theorem has_perm_no_restriction (w : world) (self : loc) (s : Start)
    (u : principal) :
  w_nodes w !! self = Some s ->
  _owner s = PyNone ->
  _owner_permission s = PyNone ->
  has_perm self u w = (Ok true, w).
Proof.
  intros Hs Ho Hp. apply (has_perm_unrestricted _ _ s); [done| |].
  - by rewrite Ho.
  - by rewrite Hp.
Qed.

(** C10: [Available()] with no owner, or a false one, and no lookup keywords
    stores the empty dict; on a node without a permission restriction
    [has_perm] then answers [True] for every user and leaves the world as it
    is: no predicate is called and the user store is not asked. *)
Theorem Available_empty_is_open (w : world) (self : loc) (s : Start)
    (owner : pyval principal) (u : principal) :
  w_nodes w !! self = Some s ->
  truthy owner = false ->
  truthy (_owner_permission s) = false ->
  exists w1 : world,
    Available self owner ∅ w = (Ok self, w1)
    /\ w_nodes w1 !! self = Some (with_owner (PyDict ∅) s)
    /\ w_log w1 = w_log w
    /\ has_perm self u w1 = (Ok true, w1).
Proof.
  intros Hs Ho Hp.
  exists (mkWorld (<[self := with_owner (PyDict ∅) s]> (w_nodes w))
                  (w_next w) (w_log w)).
  assert (Hl : (<[self := with_owner (PyDict ∅) s]> (w_nodes w)) !! self
               = Some (with_owner (PyDict ∅) s)) by apply lookup_insert_eq.
  split.
  { rewrite (Available_ok _ _ _ _ _ Hs). by rewrite Ho. }
  split; [exact Hl|]. split; [reflexivity|].
  by apply (has_perm_unrestricted _ _ (with_owner (PyDict ∅) s)).
Qed.

End HasPerm.

(** ** Wiring and fan-out: [Activate] and [activate_next] *)

Section Wiring.
Context `{Django}.

Lemma with_activate_next_id (s : Start) :
  with_activate_next (_activate_next s) s = s.
Proof. by destruct s. Qed.

Lemma Activate_ok (w : world) (self node : loc) (s : Start) :
  w_nodes w !! self = Some s ->
  Activate self node w =
    (Ok self,
     mkWorld (<[self := with_activate_next (_activate_next s ++ [node]) s]>
                (w_nodes w))
             (w_next w) (w_log w)).
Proof.
  intros Hs. unfold Activate. by rewrite (bind_ok _ _ _ _ _ (get_node_ok _ _ _ Hs)).
Qed.

Lemma Activate_chain_ok (nodes : list loc) :
  forall (w : world) (self : loc) (s : Start),
    w_nodes w !! self = Some s ->
    Activate_chain self nodes w =
      (Ok self,
       mkWorld (<[self := with_activate_next (_activate_next s ++ nodes) s]>
                  (w_nodes w))
               (w_next w) (w_log w)).
Proof.
  induction nodes as [|n rest IH]; intros w self s Hs; simpl.
  - rewrite app_nil_r, with_activate_next_id, insert_id by done.
    by destruct w.
  - rewrite (bind_ok _ _ _ _ _ (Activate_ok _ _ n _ Hs)).
    rewrite (IH _ _ (with_activate_next (_activate_next s ++ [n]) s))
      by (simpl; apply lookup_insert_eq).
    simpl. by rewrite insert_insert_eq, <- app_assoc.
Qed.

Lemma for_each_emit {A} (g : A -> event) (l : list A) :
  forall w : world,
    for_each (fun x => emit (g x)) l w = (Ok tt, log_to w (map g l)).
Proof.
  induction l as [|x rest IH]; intros w; simpl.
  - by rewrite log_to_nil.
  - unfold bind. simpl. rewrite IH. unfold log_to. simpl.
    by rewrite <- app_assoc.
Qed.

Lemma activate_next_ok (w : world) (self act : loc) (kw : kwargs) (s : Start) :
  w_nodes w !! self = Some s ->
  activate_next self act kw w =
    (Ok tt, log_to w (map (fun d => EvActivate d act) (_activate_next s))).
Proof.
  intros Hs. unfold activate_next, _outgoing.
  erewrite bind_ok
    by (rewrite (bind_ok _ _ _ _ _ (get_node_ok _ _ _ Hs)); reflexivity).
  rewrite (for_each_emit (fun e => EvActivate (dst e) act)).
  by rewrite map_map.
Qed.

(** C5: [Activate(node)] puts [node] at the end of the node's list of
    successors, changes nothing else and returns the node it was called on;
    after a chain of such calls the list is the old one followed by the
    nodes in call order, and [activate_next] then calls [activate] once per
    entry, in that order, each time with the given activation as
    [prev_activation]. *)
Theorem Activate_accumulates_in_call_order (w : world) (self : loc) (s : Start)
    (nodes : list loc) (act : loc) (kw : kwargs) :
  w_nodes w !! self = Some s ->
  (forall n : loc,
     Activate self n w =
       (Ok self,
        mkWorld (<[self := with_activate_next (_activate_next s ++ [n]) s]>
                   (w_nodes w))
                (w_next w) (w_log w)))
  /\ exists w' : world,
       Activate_chain self nodes w = (Ok self, w')
       /\ w_nodes w' =
            <[self := with_activate_next (_activate_next s ++ nodes) s]> (w_nodes w)
       /\ w_log w' = w_log w
       /\ activate_next self act kw w' =
            (Ok tt,
             log_to w' (map (fun d => EvActivate d act)
                            (_activate_next s ++ nodes))).
Proof.
  intros Hs. split; [intros n; by apply Activate_ok|].
  eexists. split; [by apply Activate_chain_ok|].
  split; [reflexivity|]. split; [reflexivity|].
  by rewrite (activate_next_ok _ _ _ _
                (with_activate_next (_activate_next s ++ nodes) s))
    by (simpl; apply lookup_insert_eq).
Qed.

End Wiring.

(** ** Construction: the activation type of a node built from a view class *)

Section Construction.
Context `{Django}.

(** C8: [Start(cls, activation_cls=a, **kw)] for a class [cls] succeeds.  When
    [cls] is a subclass of [StartActivation], the node's activation type is
    [cls], whatever [a] is; otherwise it is [a] when one was passed and the
    class default [StartViewActivation] when none was. *)
Theorem Start_view_class_activation (c : pyclass) (a : option pyclass)
    (kw : kwargs) (w : world) :
  exists s : Start,
    Start_new (Some (ViewClass c)) a kw w =
      (Ok (w_next w),
       mkWorld (<[w_next w := s]> (w_nodes w)) (S (w_next w)) (w_log w))
    /\ _view_cls s = Some c
    /\ activation_cls s =
         if issubclass c "StartActivation" then Some c
         else match a with
              | Some explicit => Some explicit
              | None => Some StartViewActivation_cls
              end.
Proof.
  eexists. split; [reflexivity|]. split; [reflexivity|]. simpl.
  destruct (issubclass c "StartActivation"); [done|]. by destruct a.
Qed.

End Construction.

(** ** The view decorator *)

Section Decorator.
Context `{Django}.

Lemma __call___bound (d : StartViewDecorator) (a : instance)
    (request : HttpRequest) (flow_task : loc) (ft : Start) (kw : kwargs)
    (w : world) :
  w_nodes w !! flow_task = Some ft ->
  activation d = Some a ->
  __call__ d request flow_task kw w =
    (Ok (ResponseOf (func d) [ArgRequest request] kw),
     log_to w (warning_if_configured ft
               ++ [EvInitialize (inst_ref a) flow_task;
                   EvCallView (func d) [ArgRequest request] kw])).
Proof.
  intros Hft Ha. unfold __call__.
  rewrite (bind_ok _ _ _ _ _ (get_node_ok _ _ _ Hft)), Ha.
  unfold warning_if_configured, bind, call_view, bind, log_to.
  destruct (activation_cls ft); simpl; by rewrite <- !app_assoc.
Qed.

Lemma __call___unbound (d : StartViewDecorator) (c : pyclass)
    (request : HttpRequest) (flow_task : loc) (ft : Start) (kw : kwargs)
    (w : world) :
  w_nodes w !! flow_task = Some ft ->
  activation d = None ->
  activation_cls ft = Some c ->
  __call__ d request flow_task kw w =
    (let args := [ArgRequest request; ArgActivation (w_next w)] in
     (Ok (ResponseOf (func d) args kw),
      mkWorld (w_nodes w) (S (w_next w))
              (w_log w ++ [EvConstruct c (w_next w);
                           EvInitialize (w_next w) flow_task;
                           EvCallView (func d) args kw]))).
Proof.
  intros Hft Ha Hc. unfold __call__.
  rewrite (bind_ok _ _ _ _ _ (get_node_ok _ _ _ Hft)), Ha, Hc.
  unfold bind, call_view, bind, construct. simpl.
  by rewrite <- !app_assoc.
Qed.

(** C9: calling a decorated view.
    - Fetched through an instance of a [StartActivation] subclass, the
      decorator initialises that very instance against the node and calls the
      bound view with the request alone; nothing is constructed (the log
      holds no other event and the allocator does not move), and the warning
      is logged, once and first, exactly when the node's [activation_cls] is
      set: by a type passed explicitly, by the type inferred from the view
      class, or by the class default alike.
    - Otherwise (a plain function, or a method fetched through an instance
      that is no [StartActivation]) and with the node's [activation_cls]
      being [c], a new object of [c] is constructed, initialised against the
      node, and passed to the view after the request; no warning is
      logged. *)
Theorem flow_start_view_activation (f : pyfunc) (request : HttpRequest)
    (flow_task : loc) (ft : Start) (kw : kwargs) (w : world) :
  w_nodes w !! flow_task = Some ft ->
  (forall inst : instance,
     isinstance inst "StartActivation" = true ->
     let view := func__get__ f inst in
     __call__ (__get__ (flow_start_view f) (Some inst)) request flow_task kw w =
       (Ok (ResponseOf view [ArgRequest request] kw),
        log_to w ((if bool_decide (is_Some (activation_cls ft))
                   then [EvWarn (warning_text (name ft)) "RuntimeWarning"]
                   else [])
                  ++ [EvInitialize (inst_ref inst) flow_task;
                      EvCallView view [ArgRequest request] kw])))
  /\ (forall (bound : option instance) (c : pyclass),
        (forall inst, bound = Some inst ->
                      isinstance inst "StartActivation" = false) ->
        activation_cls ft = Some c ->
        let d := __get__ (flow_start_view f) bound in
        let args := [ArgRequest request; ArgActivation (w_next w)] in
        __call__ d request flow_task kw w =
          (Ok (ResponseOf (func d) args kw),
           mkWorld (w_nodes w) (S (w_next w))
                   (w_log w ++ [EvConstruct c (w_next w);
                                EvInitialize (w_next w) flow_task;
                                EvCallView (func d) args kw]))).
Proof.
  intros Hft. split.
  - intros inst Hinst view.
    rewrite (__call___bound _ inst _ _ ft) by (done || (simpl; by rewrite Hinst)).
    unfold warning_if_configured. simpl.
    by destruct (activation_cls ft).
  - intros bound c Hbound Hc d args.
    apply (__call___unbound d c _ _ ft); [done| |done].
    destruct bound as [inst|]; simpl; [|done].
    by rewrite (Hbound inst eq_refl).
Qed.

End Decorator.

(** ** The activation: [StartViewActivation.prepare] *)

Section Prepare.
Context `{Forms}.

Lemma prepare_bound_form (w : act_world) (data : option kwargs) (c : pyclass) :
  resolved_form_cls (a_self w) = Some c ->
  let form := mkForm c data (task (a_self w)) in
  prepare data w =
    (if data_truthy data then
       let* _ := act_emit (AevIsValid form) in
       if negb (is_valid form) then
         raise (FlowRuntimeError ("Activation metadata is broken " +:+ errors form))
       else
         let* _ := act_emit (AevSave form false) in
         set_task (save_uncommitted form)
     else ret tt)
      (mkActWorld (with_management_form form (a_self w))
                  (a_log w ++ [AevPrepared; AevFormInit form])).
Proof.
  intros Hc form. unfold prepare, bind, get_management_form_cls, bind, gets.
  simpl. unfold resolved_form_cls in Hc.
  destruct (management_form_cls (a_self w)) as [c'|] eqn:Em; simpl in *.
  - injection Hc as ->. simpl. by rewrite <- app_assoc.
  - destruct (flow_cls (a_self w)) as [fl|]; simpl in *; [|done].
    rewrite Hc. simpl. by rewrite <- app_assoc.
Qed.

(** C6: when a form type resolves, data are submitted (true in [if data:])
    and the bound form is not valid, [prepare] raises [FlowRuntimeError] with
    the form's errors in its message; [self.task] is the record it was
    before the call, and the form was not asked to save. *)
Theorem prepare_invalid_raises (w : act_world) (data : option kwargs)
    (c : pyclass) :
  resolved_form_cls (a_self w) = Some c ->
  data_truthy data = true ->
  let form := mkForm c data (task (a_self w)) in
  is_valid form = false ->
  exists w' : act_world,
    prepare data w =
      (Raise (FlowRuntimeError ("Activation metadata is broken " +:+ errors form)),
       w')
    /\ task (a_self w') = task (a_self w)
    /\ management_form (a_self w') = Some form
    /\ a_log w' = a_log w ++ [AevPrepared; AevFormInit form; AevIsValid form].
Proof.
  intros Hc Hd form Hv. eexists. split.
  - rewrite (prepare_bound_form _ _ c Hc), Hd. fold form.
    unfold bind. simpl. rewrite Hv. simpl. reflexivity.
  - simpl. split; [reflexivity|]. split; [reflexivity|].
    by rewrite <- app_assoc.
Qed.

(** C7: when a form type resolves, data are submitted and the bound form is
    valid, [prepare] returns, [self.task] is the record
    [form.save(commit=False)] produced, and none of the events of the call
    writes to the database: the only save is the one with [commit=False]. *)
Theorem prepare_valid_installs_uncommitted (w : act_world)
    (data : option kwargs) (c : pyclass) :
  resolved_form_cls (a_self w) = Some c ->
  data_truthy data = true ->
  let form := mkForm c data (task (a_self w)) in
  is_valid form = true ->
  exists (w' : act_world) (evs : list act_event),
    prepare data w = (Ok tt, w')
    /\ task (a_self w') = Some (save_uncommitted form)
    /\ a_log w' = a_log w ++ evs
    /\ evs = [AevPrepared; AevFormInit form; AevIsValid form; AevSave form false]
    /\ Forall (fun e => is_commit e = false) evs.
Proof.
  intros Hc Hd form Hv. eexists. eexists. split; [|split; [|split; [|split]]].
  - rewrite (prepare_bound_form _ _ c Hc), Hd. fold form.
    unfold bind. simpl. rewrite Hv. simpl. reflexivity.
  - reflexivity.
  - simpl. rewrite <- !app_assoc. simpl. reflexivity.
  - reflexivity.
  - by repeat constructor.
Qed.

End Prepare.

(** ** The model at concrete inputs *)

(** With Django's rule that a superuser holds every permission, the
    permission predicate that rejects everybody still lets [root] in. *)
Example permission_predicate_false_superuser :
  fst ((let* n := @Start_new demo_django None None ∅ in
        let* n := @Permission demo_django n (PyFunc (fun _ => false)) None in
        @has_perm demo_django n "root") (@empty_world demo_django))
  = Ok true.
Proof. reflexivity. Qed.

Lemma has_perm_owner_takes_precedence_witness :
  w_nodes (demo_world (demo_node owned_by_alice can_start [])) !! 0
    = Some (demo_node owned_by_alice can_start [])
  /\ truthy (_owner (demo_node owned_by_alice can_start [])) = true
  /\ truthy (_owner_permission (demo_node owned_by_alice can_start [])) = true
  /\ exists (r : result bool) (evs : list (@event demo_django)),
       @has_perm demo_django 0 "bob" (demo_world (demo_node owned_by_alice can_start []))
         = (r, log_to (demo_world (demo_node owned_by_alice can_start [])) evs)
       /\ Forall (fun e => is_permission_event e = false) evs
       /\ forall (p : pyval string) (v : option string),
            let w' := @mkWorld demo_django (<[0 := @with_permission demo_django p v
                                         (demo_node owned_by_alice can_start [])]>
                                 (w_nodes (demo_world
                                    (demo_node owned_by_alice can_start []))))
                              1 [] in
            @has_perm demo_django 0 "bob" w' = (r, log_to w' evs).
Proof.
  split; [reflexivity|]. split; [reflexivity|]. split; [reflexivity|].
  apply (@has_perm_owner_takes_precedence demo_django
           (demo_world (demo_node owned_by_alice can_start [])) 0
           (demo_node owned_by_alice can_start []) "bob");
    reflexivity.
Defined.

Lemma has_perm_no_restriction_witness :
  w_nodes (demo_world (demo_node PyNone PyNone [])) !! 0
    = Some (demo_node PyNone PyNone [])
  /\ @has_perm demo_django 0 "bob" (demo_world (demo_node PyNone PyNone []))
     = (Ok true, demo_world (demo_node PyNone PyNone [])).
Proof.
  split; [reflexivity|].
  apply (@has_perm_no_restriction demo_django
           (demo_world (demo_node PyNone PyNone [])) 0
           (demo_node PyNone PyNone []) "bob");
    reflexivity.
Defined.

Lemma Available_empty_is_open_witness :
  w_nodes (demo_world (demo_node PyNone PyNone [])) !! 0
    = Some (demo_node PyNone PyNone [])
  /\ exists w1 : @world demo_django,
       @Available demo_django 0 PyNone ∅ (demo_world (demo_node PyNone PyNone []))
         = (Ok 0, w1)
       /\ w_nodes w1 !! 0 = Some (with_owner (PyDict ∅) (demo_node PyNone PyNone []))
       /\ w_log w1 = []
       /\ @has_perm demo_django 0 "bob" w1 = (Ok true, w1).
Proof.
  split; [reflexivity|].
  apply (@Available_empty_is_open demo_django
           (demo_world (demo_node PyNone PyNone [])) 0
           (demo_node PyNone PyNone []) PyNone "bob");
    reflexivity.
Defined.

Lemma Activate_accumulates_in_call_order_witness :
  w_nodes (demo_world (demo_node PyNone can_start [])) !! 0
    = Some (demo_node PyNone can_start [])
  /\ @Activate demo_django 0 4 (demo_world (demo_node PyNone can_start []))
     = (Ok 0, demo_world (demo_node PyNone can_start [4]))
  /\ exists w' : @world demo_django,
       Activate_chain 0 [4; 2; 3] (demo_world (demo_node PyNone can_start []))
         = (Ok 0, w')
       /\ w_nodes w' !! 0 = Some (demo_node PyNone can_start [4; 2; 3])
       /\ w_log w' = []
       /\ activate_next 0 9 ∅ w'
          = (Ok tt, log_to w' [EvActivate 4 9; EvActivate 2 9; EvActivate 3 9]).
Proof.
  split; [reflexivity|].
  destruct (@Activate_accumulates_in_call_order demo_django
              (demo_world (demo_node PyNone can_start [])) 0
              (demo_node PyNone can_start []) [4; 2; 3] 9 ∅ eq_refl)
    as [Hone (w' & Hchain & Hnodes & Hlog & Hnext)].
  split; [rewrite Hone; reflexivity|].
  exists w'. split; [exact Hchain|].
  split; [rewrite Hnodes; reflexivity|].
  split; [exact Hlog|]. exact Hnext.
Defined.

Lemma flow_start_view_activation_witness :
  w_nodes (demo_world (demo_node PyNone can_start [])) !! 0
    = Some (demo_node PyNone can_start [])
  /\ isinstance start_view_instance "StartActivation" = true
  /\ isinstance template_view_instance "StartActivation" = false
  /\ @__call__ demo_django
       (__get__ (flow_start_view (Function "dispatch")) (Some start_view_instance))
       demo_request 0 ∅ (demo_world (demo_node PyNone can_start []))
     = (Ok (ResponseOf (BoundMethod "dispatch" start_view_instance)
                       [ArgRequest demo_request] ∅),
        log_to (demo_world (demo_node PyNone can_start []))
          [EvWarn (warning_text (Some "start")) "RuntimeWarning";
           EvInitialize 7 0;
           EvCallView (BoundMethod "dispatch" start_view_instance)
                      [ArgRequest demo_request] ∅])
  /\ @__call__ demo_django
       (__get__ (flow_start_view (Function "dispatch")) (Some template_view_instance))
       demo_request 0 ∅ (demo_world (demo_node PyNone can_start []))
     = (Ok (ResponseOf (BoundMethod "dispatch" template_view_instance)
                       [ArgRequest demo_request; ArgActivation 1] ∅),
        @mkWorld demo_django {[ 0 := demo_node PyNone can_start [] ]} 2
          [EvConstruct StartViewActivation_cls 1;
           EvInitialize 1 0;
           EvCallView (BoundMethod "dispatch" template_view_instance)
                      [ArgRequest demo_request; ArgActivation 1] ∅]).
Proof.
  split; [reflexivity|]. split; [reflexivity|]. split; [reflexivity|].
  destruct (@flow_start_view_activation demo_django (Function "dispatch")
              demo_request 0 (demo_node PyNone can_start []) ∅
              (demo_world (demo_node PyNone can_start [])) eq_refl)
    as [Hbound Hfresh].
  split.
  - exact (Hbound start_view_instance eq_refl).
  - apply (Hfresh (Some template_view_instance) StartViewActivation_cls);
      [|reflexivity].
    intros inst Hinst. injection Hinst as <-. reflexivity.
Defined.

(** The test on [flow_task.activation_cls] sees the class default as well:
    [Start(StartView.as_view())] passes no activation type, the node keeps
    [StartViewActivation], and a call through a [StartView] instance logs
    the warning. *)
Example as_view_run_log :
  w_log (snd (as_view_run empty_world))
  = [EvConstruct StartView_cls 1;
     EvWarn "View already implemens StartActivation interface. Flow task `None` activation_cls ignored"
            "RuntimeWarning";
     EvInitialize 1 0;
     EvCallView (BoundMethod "dispatch" (mkInstance 1 StartView_cls))
                [ArgRequest demo_request] ∅].
Proof. reflexivity. Qed.

(** C9 as first worded, with the warning tied to an activation type that was
    passed explicitly, fails on the code: [Start()] passes none, and the
    call through a [StartView] instance logs the warning all the same,
    since the node carries the class default. *)
Lemma flow_start_view_warns_without_explicit_type :
  w_log (snd (bound_view_run None empty_world))
  = [EvConstruct StartView_cls 1;
     EvWarn "View already implemens StartActivation interface. Flow task `None` activation_cls ignored"
            "RuntimeWarning";
     EvInitialize 1 0;
     EvCallView (BoundMethod "dispatch" (mkInstance 1 StartView_cls))
                [ArgRequest demo_request] ∅]
  /\ ~ (existsb is_warning (w_log (snd (bound_view_run None empty_world))) = true
        <-> is_Some (@None pyclass)).
Proof.
  split; [reflexivity|].
  intros [Hwarn _]. destruct (Hwarn eq_refl) as [c Hc]. discriminate Hc.
Qed.

Lemma prepare_invalid_raises_witness :
  resolved_form_cls (a_self demo_activation) = Some ManagementForm_cls
  /\ data_truthy invalid_data = true
  /\ @is_valid demo_forms (mkForm ManagementForm_cls invalid_data (Some 5)) = false
  /\ exists w' : act_world,
       @prepare demo_forms invalid_data demo_activation
       = (Raise (FlowRuntimeError
            "Activation metadata is broken started: This field is required."),
          w')
       /\ task (a_self w') = Some 5
       /\ management_form (a_self w')
          = Some (mkForm ManagementForm_cls invalid_data (Some 5))
       /\ a_log w' =
            [AevPrepared;
             AevFormInit (mkForm ManagementForm_cls invalid_data (Some 5));
             AevIsValid (mkForm ManagementForm_cls invalid_data (Some 5))].
Proof.
  split; [reflexivity|]. split; [reflexivity|]. split; [reflexivity|].
  apply (@prepare_invalid_raises demo_forms demo_activation invalid_data
           ManagementForm_cls);
    reflexivity.
Defined.

Lemma prepare_valid_installs_uncommitted_witness :
  resolved_form_cls (a_self demo_activation) = Some ManagementForm_cls
  /\ data_truthy valid_data = true
  /\ @is_valid demo_forms (mkForm ManagementForm_cls valid_data (Some 5)) = true
  /\ exists (w' : act_world) (evs : list act_event),
       @prepare demo_forms valid_data demo_activation = (Ok tt, w')
       /\ task (a_self w') = Some 6
       /\ a_log w' = [] ++ evs
       /\ evs = [AevPrepared;
                 AevFormInit (mkForm ManagementForm_cls valid_data (Some 5));
                 AevIsValid (mkForm ManagementForm_cls valid_data (Some 5));
                 AevSave (mkForm ManagementForm_cls valid_data (Some 5)) false]
       /\ Forall (fun e => is_commit e = false) evs.
Proof.
  split; [reflexivity|]. split; [reflexivity|]. split; [reflexivity|].
  apply (@prepare_valid_installs_uncommitted demo_forms demo_activation
           valid_data ManagementForm_cls);
    reflexivity.
Defined.

(** ** More on authorisation *)

Section Authorisation.
Context `{Django}.

(** [has_perm] reads two attributes of the node and nothing else. *)
Lemma has_perm_run (w : world) (self : loc) (s : Start) (u : principal) :
  w_nodes w !! self = Some s ->
  has_perm self u w =
    (fst (has_perm_outcome (_owner s) (_owner_permission s) u),
     log_to w (snd (has_perm_outcome (_owner s) (_owner_permission s) u))).
Proof.
  intros Hs. unfold has_perm_outcome, has_perm, bind.
  rewrite (get_node_ok _ _ _ Hs).
  unfold get_node. simpl w_nodes. rewrite lookup_singleton_eq.
  cbn [_owner _owner_permission].
  destruct (_owner s) as [|f|kw|n]; cbn [truthy callable].
  - destruct (_owner_permission s) as [|g|kw|n]; cbn [truthy callable].
    + simpl. by rewrite ?log_to_nil.
    + unfold call_predicate, bind, emit, modify, ret, log_to. simpl.
      destruct (g u); simpl; [done|]. by rewrite <- app_assoc.
    + destruct (bool_decide (kw = ∅)); simpl; by rewrite ?log_to_nil.
    + destruct (bool_decide (n = "")); simpl; by rewrite ?log_to_nil.
  - unfold call_predicate, bind, emit, modify, ret, log_to. simpl.
    by destruct (f u).
  - destruct (bool_decide (kw = ∅)) eqn:Ekw; simpl.
    + destruct (_owner_permission s) as [|g|kw'|n]; cbn [truthy callable].
      * simpl. by rewrite ?log_to_nil.
      * unfold call_predicate, bind, emit, modify, ret, log_to. simpl.
        destruct (g u); simpl; [done|]. by rewrite <- app_assoc.
      * destruct (bool_decide (kw' = ∅)); simpl; by rewrite ?log_to_nil.
      * destruct (bool_decide (n = "")); simpl; by rewrite ?log_to_nil.
    + unfold manager_get, bind. simpl.
      by destruct (default_manager_get kw).
  - destruct (bool_decide (n = "")) eqn:En; simpl.
    + destruct (_owner_permission s) as [|g|kw'|n']; cbn [truthy callable].
      * simpl. by rewrite ?log_to_nil.
      * unfold call_predicate, bind, emit, modify, ret, log_to. simpl.
        destruct (g u); simpl; [done|]. by rewrite <- app_assoc.
      * destruct (bool_decide (kw' = ∅)); simpl; by rewrite ?log_to_nil.
      * destruct (bool_decide (n' = "")); simpl; by rewrite ?log_to_nil.
    + simpl. by rewrite ?log_to_nil.
Qed.

(** X1: with lookup keywords as the owner restriction and a user store that
    resolves them to the user [P], and with [==] on users deciding equality,
    [has_perm] asks the store once and answers [True] for [P] and [False]
    for everybody else. *)
Theorem has_perm_lookup_owner (w : world) (self : loc) (s : Start)
    (kw : kwargs) (P u : principal) :
  w_nodes w !! self = Some s ->
  _owner s = PyDict kw -> kw <> ∅ ->
  default_manager_get kw = Ok P ->
  (forall a b : principal, user_eqb a b = true <-> a = b) ->
  exists b : bool,
    has_perm self u w = (Ok b, log_to w [EvManagerGet kw])
    /\ (b = true <-> u = P).
Proof.
  intros Hs Ho Hkw HP Heq. exists (user_eqb P u). split.
  - rewrite (has_perm_owner_lookup _ _ _ _ _ Hs Ho Hkw). by rewrite HP.
  - rewrite Heq. split; congruence.
Qed.

(** X2: when the user store cannot resolve the lookup keywords to one user
    and raises, [has_perm] raises the same error after that one lookup;
    nothing catches it. *)
Theorem has_perm_lookup_failure (w : world) (self : loc) (s : Start)
    (kw : kwargs) (e : exn) (u : principal) :
  w_nodes w !! self = Some s ->
  _owner s = PyDict kw -> kw <> ∅ ->
  default_manager_get kw = Raise e ->
  has_perm self u w = (Raise e, log_to w [EvManagerGet kw]).
Proof.
  intros Hs Ho Hkw He.
  rewrite (has_perm_owner_lookup _ _ _ _ _ Hs Ho Hkw). by rewrite He.
Qed.

(** X3: [Available("alice")], a non-empty string passed as the owner, is
    stored as it is (the lookup keywords are dropped), and from then on
    [has_perm] raises [TypeError] for every user, without calling anything. *)
Theorem Available_string_owner_raises (w : world) (self : loc) (s : Start)
    (n : string) (kw : kwargs) (u : principal) :
  w_nodes w !! self = Some s ->
  n <> "" ->
  exists w1 : world,
    Available self (PyStr n) kw w = (Ok self, w1)
    /\ w_nodes w1 !! self = Some (with_owner (PyStr n) s)
    /\ has_perm self u w1 =
         (Raise (TypeError "get() argument after ** must be a mapping, not str"),
          w1).
Proof.
  intros Hs Hn. eexists. split.
  { rewrite (Available_ok _ _ _ _ _ Hs). simpl.
    rewrite bool_decide_eq_false_2 by done. reflexivity. }
  split; [simpl; apply lookup_insert_eq|].
  apply (has_perm_owner_str _ _ (with_owner (PyStr n) s) n);
    [simpl; apply lookup_insert_eq | reflexivity | done].
Qed.

(** X4: without an owner restriction and with a permission name as the
    permission restriction, [has_perm] is [user.has_perm(name)]: that call
    is the only one made and its answer is returned. *)
Theorem has_perm_permission_name (w : world) (self : loc) (s : Start)
    (n : string) (u : principal) :
  w_nodes w !! self = Some s ->
  truthy (_owner s) = false ->
  _owner_permission s = PyStr n -> n <> "" ->
  has_perm self u w =
    (Ok (user_has_perm u (PyStr n)), log_to w [EvUserHasPerm u (PyStr n)]).
Proof.
  intros Hs Ho Hp Hn. unfold has_perm, bind.
  rewrite (get_node_ok _ _ _ Hs), Ho, Hp. simpl.
  by rewrite bool_decide_eq_false_2 by done.
Qed.

(** X5: a predicate that accepts the user settles the matter: as the owner
    restriction, and as the permission restriction of a node without owner
    restriction, it is called once and [has_perm] answers [True] without
    asking the user store or [user.has_perm]. *)
Theorem has_perm_accepting_predicate (w : world) (self : loc) (s : Start)
    (f : principal -> bool) (u : principal) :
  w_nodes w !! self = Some s ->
  f u = true ->
  (_owner s = PyFunc f ->
   has_perm self u w = (Ok true, log_to w [EvOwnerCall u]))
  /\ (truthy (_owner s) = false -> _owner_permission s = PyFunc f ->
      has_perm self u w = (Ok true, log_to w [EvPermissionCall u])).
Proof.
  intros Hs Hf. split.
  - intros Ho. rewrite (has_perm_owner_predicate _ _ _ _ _ Hs Ho). by rewrite Hf.
  - intros Ho Hp.
    rewrite (has_perm_permission_predicate _ _ _ _ _ Hs Ho Hp). by rewrite Hf.
Qed.

(** X6: [has_perm] only reads: on every store, for every reference and user,
    it leaves the nodes and the allocator as they are, and adds at most two
    events to the log. *)
Theorem has_perm_reads_only (w : world) (self : loc) (u : principal) :
  w_nodes (snd (has_perm self u w)) = w_nodes w
  /\ w_next (snd (has_perm self u w)) = w_next w
  /\ exists evs : list event,
       w_log (snd (has_perm self u w)) = w_log w ++ evs /\ length evs <= 2.
Proof.
  destruct (w_nodes w !! self) as [s|] eqn:Hs.
  - rewrite (has_perm_run _ _ _ _ Hs). simpl.
    split; [done|]. split; [done|]. eexists. split; [reflexivity|].
    unfold has_perm_outcome, has_perm, bind, get_node. simpl w_nodes.
    rewrite lookup_singleton_eq. cbn [_owner _owner_permission].
    assert (Hperm : forall p : pyval principal,
      length (w_log (snd
        ((if truthy p
          then (let* hit := (if callable p
                             then call_predicate EvPermissionCall p u
                             else ret false) in
                if hit then ret true
                else let* _ := emit (EvUserHasPerm u p) in
                     ret (user_has_perm u p))
          else ret true)
         (mkWorld {[ 0 := mkStart None None None None None []
                              (_owner s) p None ]} 1 [])))) <= 2).
    { intros [|g|kw|n]; unfold bind; simpl; try lia.
      - destruct (g u); simpl; lia.
      - destruct (bool_decide (kw = ∅)); simpl; lia.
      - destruct (bool_decide (n = "")); simpl; lia. }
    destruct (_owner s) as [|f|kw|n] eqn:Eo; cbn [truthy callable].
    + apply Hperm.
    + unfold bind. simpl. destruct (f u); simpl; lia.
    + destruct (bool_decide (kw = ∅)); cbn [negb]; [apply Hperm|].
      unfold bind, manager_get, bind. simpl.
      destruct (default_manager_get kw); simpl; lia.
    + destruct (bool_decide (n = "")); cbn [negb]; [apply Hperm|].
      unfold bind. simpl. lia.
  - unfold has_perm, bind, get_node. rewrite Hs. simpl.
    split; [done|]. split; [done|]. exists []. split; [by rewrite app_nil_r|].
    simpl. lia.
Qed.

(** X7: wiring successors does not touch authorisation: after
    [Activate(node)], [has_perm] gives every user the answer, and logs the
    events, it gave before. *)
Theorem has_perm_after_Activate (w : world) (self node : loc) (s : Start)
    (u : principal) :
  w_nodes w !! self = Some s ->
  exists (w1 : world) (r : result bool) (evs : list event),
    Activate self node w = (Ok self, w1)
    /\ has_perm self u w = (r, log_to w evs)
    /\ has_perm self u w1 = (r, log_to w1 evs).
Proof.
  intros Hs. eexists. eexists. eexists.
  split; [by apply Activate_ok|].
  split; [by apply has_perm_run|].
  by rewrite (has_perm_run _ _
                (with_activate_next (_activate_next s ++ [node]) s))
    by (simpl; apply lookup_insert_eq).
Qed.

End Authorisation.

(** ** More on wiring and construction *)

Section WiringMore.
Context `{Django}.

Lemma with_owner_with_owner (o1 o2 : pyval principal) (s : Start) :
  with_owner o2 (with_owner o1 s) = with_owner o2 s.
Proof. reflexivity. Qed.

(** X8: an owner that counts as true shadows the lookup keywords: whatever
    keywords come with it, [Available] stores the owner alone. *)
Theorem Available_owner_shadows_lookup (w : world) (self : loc) (s : Start)
    (owner : pyval principal) (kw : kwargs) :
  w_nodes w !! self = Some s ->
  truthy owner = true ->
  Available self owner kw w = Available self owner ∅ w
  /\ exists w1 : world,
       Available self owner kw w = (Ok self, w1)
       /\ w_nodes w1 !! self = Some (with_owner owner s).
Proof.
  intros Hs Ho. rewrite !(Available_ok _ _ _ _ _ Hs), Ho.
  split; [reflexivity|]. eexists. split; [reflexivity|].
  simpl. apply lookup_insert_eq.
Qed.

(** X9: restrictions are replaced, not accumulated: a second [Available]
    leaves the store as if it had been the only one, and so does a second
    [Permission]. *)
Theorem wiring_last_call_wins (w : world) (self : loc) (s : Start)
    (o1 o2 : pyval principal) (k1 k2 : kwargs)
    (p1 p2 : pyval principal) (v1 v2 : option string) :
  w_nodes w !! self = Some s ->
  (let* r := Available self o1 k1 in Available r o2 k2) w
    = Available self o2 k2 w
  /\ (let* r := Permission self p1 v1 in Permission r p2 v2) w
     = Permission self p2 v2 w.
Proof.
  intros Hs. split.
  - rewrite (bind_ok _ _ _ _ _ (Available_ok _ _ _ _ k1 Hs)).
    erewrite Available_ok by (simpl; apply lookup_insert_eq).
    rewrite (Available_ok _ _ _ _ _ Hs). simpl.
    by rewrite insert_insert_eq.
  - rewrite (bind_ok _ _ _ _ _ (Permission_ok _ _ _ _ v1 Hs)).
    erewrite Permission_ok by (simpl; apply lookup_insert_eq).
    rewrite (Permission_ok _ _ _ _ _ Hs). simpl.
    by rewrite insert_insert_eq.
Qed.

(** X10: the order of wiring calls of different kinds does not matter:
    [Available] and [Permission] commute, and [Activate] commutes with
    both. *)
Theorem wiring_commutes (w : world) (self node : loc) (s : Start)
    (o : pyval principal) (k : kwargs) (p : pyval principal)
    (v : option string) :
  w_nodes w !! self = Some s ->
  (let* r := Available self o k in Permission r p v) w
    = (let* r := Permission self p v in Available r o k) w
  /\ (let* r := Activate self node in Available r o k) w
     = (let* r := Available self o k in Activate r node) w
  /\ (let* r := Activate self node in Permission r p v) w
     = (let* r := Permission self p v in Activate r node) w.
Proof.
  intros Hs. split; [|split].
  - rewrite (bind_ok _ _ _ _ _ (Available_ok _ _ _ _ k Hs)).
    rewrite (bind_ok _ _ _ _ _ (Permission_ok _ _ _ _ v Hs)).
    erewrite Permission_ok by (simpl; apply lookup_insert_eq).
    erewrite Available_ok by (simpl; apply lookup_insert_eq).
    simpl. by rewrite !insert_insert_eq.
  - rewrite (bind_ok _ _ _ _ _ (Activate_ok _ _ node _ Hs)).
    rewrite (bind_ok _ _ _ _ _ (Available_ok _ _ _ _ k Hs)).
    erewrite Available_ok by (simpl; apply lookup_insert_eq).
    erewrite Activate_ok by (simpl; apply lookup_insert_eq).
    simpl. by rewrite !insert_insert_eq.
  - rewrite (bind_ok _ _ _ _ _ (Activate_ok _ _ node _ Hs)).
    rewrite (bind_ok _ _ _ _ _ (Permission_ok _ _ _ _ v Hs)).
    erewrite Permission_ok by (simpl; apply lookup_insert_eq).
    erewrite Activate_ok by (simpl; apply lookup_insert_eq).
    simpl. by rewrite !insert_insert_eq.
Qed.

(** X11: wiring one node leaves every other node as it is: after
    [Activate], [Available] or [Permission] on [self], a different reference
    still holds what it held, and nothing was logged or allocated. *)
Theorem wiring_frame (w : world) (self other node : loc) (s : Start)
    (o : pyval principal) (k : kwargs) (p : pyval principal)
    (v : option string) :
  w_nodes w !! self = Some s ->
  other <> self ->
  Forall (fun w1 : world =>
            w_nodes w1 !! other = w_nodes w !! other
            /\ w_next w1 = w_next w /\ w_log w1 = w_log w)
         [snd (Activate self node w);
          snd (Available self o k w);
          snd (Permission self p v w)].
Proof.
  intros Hs Hne.
  rewrite (Activate_ok _ _ node _ Hs), (Available_ok _ _ _ o k Hs),
    (Permission_ok _ _ _ p v Hs).
  repeat constructor; simpl; by rewrite lookup_insert_ne.
Qed.

(** X12: after a chain of [Activate] calls, [_outgoing] yields one edge per
    successor, old ones first and then the new ones in call order, each from
    the node itself and of class [next]; it changes nothing. *)
Theorem outgoing_after_Activate (w : world) (self : loc) (s : Start)
    (nodes : list loc) :
  w_nodes w !! self = Some s ->
  exists w1 : world,
    Activate_chain self nodes w = (Ok self, w1)
    /\ _outgoing self w1 =
         (Ok (map (fun n => mkEdge self n "next") (_activate_next s ++ nodes)),
          w1).
Proof.
  intros Hs. eexists. split; [by apply Activate_chain_ok|].
  unfold _outgoing.
  erewrite bind_ok by (apply get_node_ok; simpl; apply lookup_insert_eq).
  reflexivity.
Qed.

(** X13: what [Start(...)] leaves behind.  With something that is neither
    [None], a function nor a class it raises [TypeError] and the store is as
    before.  Otherwise the new node has no successors and an activation
    type, every user may start it, and [activate_next] on it does
    nothing. *)
Theorem Start_new_fresh_node (view : option view_arg) (a : option pyclass)
    (kw : kwargs) (w : world) (u : principal) (act : loc) :
  match view with
  | Some (ViewObject _) =>
      Start_new view a kw w =
        (Raise (TypeError "issubclass() arg 1 must be a class"), w)
  | _ =>
      exists (s : Start) (w1 : world),
        Start_new view a kw w = (Ok (w_next w), w1)
        /\ w_nodes w1 !! w_next w = Some s
        /\ w_log w1 = w_log w
        /\ _activate_next s = []
        /\ is_Some (activation_cls s)
        /\ has_perm (w_next w) u w1 = (Ok true, w1)
        /\ activate_next (w_next w) act ∅ w1 = (Ok tt, w1)
  end.
Proof.
  assert (Hgen : forall s : Start,
    _activate_next s = [] -> _owner s = PyNone -> _owner_permission s = PyNone ->
    is_Some (activation_cls s) ->
    Start_init view a kw = Ok s ->
    exists (s : Start) (w1 : world),
      Start_new view a kw w = (Ok (w_next w), w1)
      /\ w_nodes w1 !! w_next w = Some s
      /\ w_log w1 = w_log w
      /\ _activate_next s = []
      /\ is_Some (activation_cls s)
      /\ has_perm (w_next w) u w1 = (Ok true, w1)
      /\ activate_next (w_next w) act ∅ w1 = (Ok tt, w1)).
  { intros s Hn Ho Hp Ha Hi. exists s. eexists.
    unfold Start_new. rewrite Hi.
    split; [reflexivity|].
    assert (Hl : (<[w_next w := s]> (w_nodes w)) !! w_next w = Some s)
      by apply lookup_insert_eq.
    split; [exact Hl|]. split; [reflexivity|]. split; [exact Hn|].
    split; [exact Ha|]. split.
    - apply (has_perm_unrestricted _ _ s); [exact Hl| |]; by rewrite ?Ho, ?Hp.
    - erewrite activate_next_ok by (simpl; exact Hl).
      rewrite Hn. simpl. by rewrite log_to_nil. }
  destruct view as [[f|c|d]|]; [| |reflexivity|].
  - eapply Hgen; [..|reflexivity]; try reflexivity.
    simpl. destruct a; eauto.
  - eapply Hgen; [..|reflexivity]; try reflexivity.
    simpl. destruct (issubclass c "StartActivation"); [eauto|].
    destruct a; eauto.
  - eapply Hgen; [..|reflexivity]; try reflexivity.
    simpl. destruct a; eauto.
Qed.

(** X14: with a plain function as the view, the keyword arguments given to
    [Start] are dropped: the node is the one built without them, and its
    activation type is the one passed, or the class default, and never
    inferred. *)
Theorem Start_new_function_view (f : string) (a : option pyclass)
    (kw : kwargs) (w : world) :
  Start_new (Some (ViewFunction f)) a kw w
    = Start_new (Some (ViewFunction f)) a ∅ w
  /\ exists s : Start,
       Start_init (Some (ViewFunction f)) a kw = Ok s
       /\ _view s = Some f /\ _view_cls s = None /\ _view_args s = None
       /\ activation_cls s = Some (default StartViewActivation_cls a).
Proof.
  split; [reflexivity|]. eexists. split; [reflexivity|].
  repeat split. by destruct a.
Qed.

End WiringMore.

(** ** More on the view decorator *)

Section DecoratorMore.
Context `{Django}.

Lemma Start_new_inv (view : option view_arg) (a : option pyclass)
    (kw : kwargs) (w w1 : world) (node : loc) :
  Start_new view a kw w = (Ok node, w1) ->
  exists s : Start,
    Start_init view a kw = Ok s
    /\ node = w_next w
    /\ w1 = mkWorld (<[w_next w := s]> (w_nodes w)) (S (w_next w)) (w_log w).
Proof.
  unfold Start_new. destruct (Start_init view a kw) as [s|e]; [|discriminate].
  intros [= <- <-]. by exists s.
Qed.

Lemma Start_init_activation_cls (view : option view_arg) (a : option pyclass)
    (kw : kwargs) (s : Start) :
  Start_init view a kw = Ok s -> is_Some (activation_cls s).
Proof.
  destruct view as [[g|c|d]|]; simpl; intros [= <-]; simpl.
  - destruct a; eauto.
  - destruct (issubclass c "StartActivation"); [eauto|]. destruct a; eauto.
  - destruct a; eauto.
Qed.

(** X15: a node built by [Start(...)] always has an activation type (the
    one passed, the view class, or the class default), so every call of a
    decorated view through an instance of a [StartActivation] subclass logs
    the warning, before it initialises the instance. *)
Theorem constructed_node_always_warns (view : option view_arg)
    (a : option pyclass) (kw kw' : kwargs) (w w1 : world) (node : loc)
    (f : pyfunc) (inst : instance) (request : HttpRequest) :
  Start_new view a kw w = (Ok node, w1) ->
  isinstance inst "StartActivation" = true ->
  exists s : Start,
    w_nodes w1 !! node = Some s
    /\ is_Some (activation_cls s)
    /\ __call__ (__get__ (flow_start_view f) (Some inst)) request node kw' w1 =
         (Ok (ResponseOf (func__get__ f inst) [ArgRequest request] kw'),
          log_to w1 [EvWarn (warning_text (name s)) "RuntimeWarning";
                     EvInitialize (inst_ref inst) node;
                     EvCallView (func__get__ f inst) [ArgRequest request] kw']).
Proof.
  intros Hnew Hinst.
  destruct (Start_new_inv _ _ _ _ _ _ Hnew) as (s & Hinit & -> & ->).
  destruct (Start_init_activation_cls _ _ _ _ Hinit) as [c Hc].
  assert (Hs : (<[w_next w := s]> (w_nodes w)) !! w_next w = Some s)
    by apply lookup_insert_eq.
  exists s. split; [exact Hs|]. split; [by exists c|].
  rewrite (__call___bound _ inst _ _ s) by (done || (simpl; by rewrite Hinst)).
  unfold warning_if_configured. by rewrite Hc.
Qed.

(** X16: serving a request never rewires the flow: whatever the decorator,
    request and flow task, [__call__] leaves every node as it is, allocates
    at most one object and only adds to the log. *)
Theorem call_keeps_nodes (d : StartViewDecorator) (request : HttpRequest)
    (flow_task : loc) (kw : kwargs) (w : world) :
  w_nodes (snd (__call__ d request flow_task kw w)) = w_nodes w
  /\ w_next w <= w_next (snd (__call__ d request flow_task kw w)) <= S (w_next w)
  /\ exists evs : list event,
       w_log (snd (__call__ d request flow_task kw w)) = w_log w ++ evs.
Proof.
  unfold __call__, bind, get_node.
  destruct (w_nodes w !! flow_task) as [ft|]; simpl;
    [|split; [done|]; split; [lia|]; exists []; by rewrite app_nil_r].
  destruct (activation d) as [i|]; simpl.
  - destruct (activation_cls ft); simpl;
      (split; [done|]; split; [lia|]; eexists; by rewrite <- ?app_assoc).
  - destruct (activation_cls ft); simpl;
      (split; [done|]; split; [lia|]).
    + eexists. by rewrite <- !app_assoc.
    + exists []. by rewrite app_nil_r.
Qed.

End DecoratorMore.

(** ** More on [prepare] *)

Section PrepareMore.
Context `{Forms}.

(** X17: without submitted data ([None], or an empty dict) and with a form
    type that resolves, [prepare] binds the form and returns: the form is
    not validated and not saved, and [self.task] stays the record it was. *)
Theorem prepare_without_data (w : act_world) (data : option kwargs)
    (c : pyclass) :
  resolved_form_cls (a_self w) = Some c ->
  data_truthy data = false ->
  prepare data w =
    (Ok tt,
     mkActWorld
       (with_management_form (mkForm c data (task (a_self w))) (a_self w))
       (a_log w ++ [AevPrepared; AevFormInit (mkForm c data (task (a_self w)))])).
Proof.
  intros Hc Hd. by rewrite (prepare_bound_form _ _ c Hc), Hd.
Qed.

(** X18: the activation's own [management_form_cls] wins: when it is set,
    the flow class is not looked at (the activation may even lack one), and
    after [prepare], whether it returned or raised, [self.management_form]
    is a form of that type bound to the data passed and to the task record
    held before the call. *)
Theorem prepare_binds_own_form (w : act_world) (data : option kwargs)
    (c : pyclass) :
  management_form_cls (a_self w) = Some c ->
  management_form (a_self (snd (prepare data w)))
    = Some (mkForm c data (task (a_self w)))
  /\ flow_cls (a_self (snd (prepare data w))) = flow_cls (a_self w).
Proof.
  intros Hc.
  assert (Hr : resolved_form_cls (a_self w) = Some c)
    by (unfold resolved_form_cls; by rewrite Hc).
  rewrite (prepare_bound_form _ _ c Hr).
  destruct (data_truthy data); [|done].
  unfold bind. simpl.
  by destruct (is_valid (mkForm c data (task (a_self w)))).
Qed.

Lemma prepare_unresolved (w : act_world) (data : option kwargs) :
  resolved_form_cls (a_self w) = None ->
  prepare data w =
    (Raise (match flow_cls (a_self w) with
            | None => AttributeError
                        "'NoneType' object has no attribute 'management_form_cls'"
            | Some _ => TypeError "'NoneType' object is not callable"
            end),
     mkActWorld (a_self w) (a_log w ++ [AevPrepared])).
Proof.
  unfold resolved_form_cls. intros Hc.
  unfold prepare, bind, get_management_form_cls, bind, gets. simpl.
  destruct (management_form_cls (a_self w)); [discriminate|].
  destruct (flow_cls (a_self w)) as [fl|]; simpl in *; [|done].
  by rewrite Hc.
Qed.

(** X19: when the activation has no [management_form_cls] of its own,
    [prepare] needs the flow class: on an activation that has none yet it
    raises [AttributeError], and when the flow class defines no management
    form it raises [TypeError].  Either way the base class has prepared, no
    form exists and the activation is as it was. *)
Theorem prepare_without_form_cls (w : act_world) (data : option kwargs) :
  management_form_cls (a_self w) = None ->
  (flow_cls (a_self w) = None ->
   prepare data w =
     (Raise (AttributeError
               "'NoneType' object has no attribute 'management_form_cls'"),
      mkActWorld (a_self w) (a_log w ++ [AevPrepared])))
  /\ (forall fl : flow_class,
        flow_cls (a_self w) = Some fl -> flow_management_form_cls fl = None ->
        prepare data w =
          (Raise (TypeError "'NoneType' object is not callable"),
           mkActWorld (a_self w) (a_log w ++ [AevPrepared]))).
Proof.
  intros Hm. split.
  - intros Hf. rewrite prepare_unresolved; [by rewrite Hf|].
    unfold resolved_form_cls. by rewrite Hm, Hf.
  - intros fl Hf Hn. rewrite prepare_unresolved; [by rewrite Hf|].
    unfold resolved_form_cls. by rewrite Hm, Hf.
Qed.

(** X20: a page view followed by a bad submission: [prepare(None)] and then
    [prepare(data)] with data the form rejects raises [FlowRuntimeError],
    and [self.task] is still the record the activation started with. *)
Theorem prepare_then_invalid (w : act_world) (data : option kwargs)
    (c : pyclass) :
  resolved_form_cls (a_self w) = Some c ->
  data_truthy data = true ->
  is_valid (mkForm c data (task (a_self w))) = false ->
  exists w' : act_world,
    (let* _ := prepare None in prepare data) w =
      (Raise (FlowRuntimeError
                ("Activation metadata is broken "
                 +:+ errors (mkForm c data (task (a_self w))))), w')
    /\ task (a_self w') = task (a_self w)
    /\ a_log w' =
         a_log w ++ [AevPrepared;
                     AevFormInit (mkForm c None (task (a_self w)));
                     AevPrepared;
                     AevFormInit (mkForm c data (task (a_self w)));
                     AevIsValid (mkForm c data (task (a_self w)))].
Proof.
  intros Hc Hd Hv. eexists. split.
  - erewrite bind_ok by (by rewrite (prepare_bound_form _ None c Hc)).
    rewrite (prepare_bound_form _ _ c) by exact Hc.
    rewrite Hd. unfold bind. simpl. rewrite Hv. simpl. reflexivity.
  - simpl. split; [reflexivity|]. by rewrite <- !app_assoc.
Qed.

(** X21: [prepare] never writes to the database: on every activation and
    for every data, the events it adds to the log hold no save with
    [commit=True] and no save of the task. *)
Theorem prepare_never_commits (w : act_world) (data : option kwargs) :
  exists evs : list act_event,
    a_log (snd (prepare data w)) = a_log w ++ evs
    /\ Forall (fun e => is_commit e = false) evs.
Proof.
  destruct (resolved_form_cls (a_self w)) as [c|] eqn:Hc.
  - rewrite (prepare_bound_form _ _ c Hc).
    destruct (data_truthy data).
    + unfold bind. simpl.
      destruct (is_valid (mkForm c data (task (a_self w)))); simpl;
        rewrite <- !app_assoc; eexists; (split; [reflexivity|]);
        by repeat constructor.
    + simpl. eexists. split; [reflexivity|]. by repeat constructor.
  - rewrite (prepare_unresolved _ _ Hc). simpl.
    eexists. split; [reflexivity|]. by repeat constructor.
Qed.

End PrepareMore.

(** ** StartView *)

Section StartViewFacts.
Context `{Django} `{Forms}.

Lemma post_or_none_truthy (request : HttpRequest) :
  req_POST request <> ∅ ->
  post_or_none request = Some (req_POST request)
  /\ data_truthy (post_or_none request) = true.
Proof.
  intros Hp. unfold post_or_none.
  rewrite bool_decide_eq_false_2 by done. simpl.
  by rewrite bool_decide_eq_false_2 by done.
Qed.

(** X22: authorisation comes first: when [has_perm] answers [False] for the
    user of the request, [dispatch] raises [PermissionDenied]; the
    activation is untouched ([prepare] did not run) and
    [UpdateView.dispatch] is not called. *)
Theorem dispatch_denied (self : instance) (flow_task : loc)
    (request : HttpRequest) (kw : kwargs) (v : view_world) :
  fst (has_perm flow_task (req_user request) (v_flow v)) = Ok false ->
  dispatch self flow_task request kw v =
    (PermissionDenied,
     mkViewWorld (snd (has_perm flow_task (req_user request) (v_flow v)))
                 (v_act v)).
Proof.
  intros Hp. unfold dispatch.
  destruct (has_perm flow_task (req_user request) (v_flow v)) as [r fw].
  simpl in *. by rewrite Hp.
Qed.


(** X24: a bad submission by an authorised user: with non-empty POST data
    that the management form rejects, [dispatch] raises the
    [FlowRuntimeError] of [prepare]; [UpdateView.dispatch] is not called and
    [self.task] is the record it was. *)
Theorem dispatch_invalid_post (self : instance) (flow_task : loc)
    (request : HttpRequest) (kw : kwargs) (v : view_world) (c : pyclass) :
  fst (has_perm flow_task (req_user request) (v_flow v)) = Ok true ->
  resolved_form_cls (a_self (v_act v)) = Some c ->
  req_POST request <> ∅ ->
  let form := mkForm c (Some (req_POST request)) (task (a_self (v_act v))) in
  is_valid form = false ->
  exists aw : act_world,
    dispatch self flow_task request kw v =
      (Raised (FlowRuntimeError
                 ("Activation metadata is broken " +:+ errors form)),
       mkViewWorld (snd (has_perm flow_task (req_user request) (v_flow v))) aw)
    /\ task (a_self aw) = task (a_self (v_act v)).
Proof.
  intros Hp Hc Hpost form Hv. unfold dispatch.
  destruct (has_perm flow_task (req_user request) (v_flow v)) as [r fw].
  simpl in *. rewrite Hp.
  rewrite (prepare_bound_form _ _ c Hc).
  destruct (post_or_none_truthy request Hpost) as [Hpn Hd].
  rewrite Hd, Hpn. unfold bind. simpl. fold form. rewrite Hv. simpl.
  eexists. split; reflexivity.
Qed.

(** X25: a good submission by an authorised user: with non-empty POST data
    that the management form accepts, [self.task] becomes the record of
    [form.save(commit=False)], and [UpdateView.dispatch] is called with the
    request and returns the response. *)
Theorem dispatch_valid_post (self : instance) (flow_task : loc)
    (request : HttpRequest) (kw : kwargs) (v : view_world) (c : pyclass) :
  fst (has_perm flow_task (req_user request) (v_flow v)) = Ok true ->
  resolved_form_cls (a_self (v_act v)) = Some c ->
  req_POST request <> ∅ ->
  let form := mkForm c (Some (req_POST request)) (task (a_self (v_act v))) in
  let call := BoundMethod "UpdateView.dispatch" self in
  is_valid form = true ->
  exists aw : act_world,
    dispatch self flow_task request kw v =
      (Returned (ResponseOf call [ArgRequest request] kw),
       mkViewWorld
         (log_to (snd (has_perm flow_task (req_user request) (v_flow v)))
                 [EvCallView call [ArgRequest request] kw])
         aw)
    /\ task (a_self aw) = Some (save_uncommitted form)
    /\ management_form (a_self aw) = Some form.
Proof.
  intros Hp Hc Hpost form call Hv. unfold dispatch.
  destruct (has_perm flow_task (req_user request) (v_flow v)) as [r fw].
  simpl in *. rewrite Hp.
  rewrite (prepare_bound_form _ _ c Hc).
  destruct (post_or_none_truthy request Hpost) as [Hpn Hd].
  rewrite Hd, Hpn. unfold bind. simpl. fold form. rewrite Hv. simpl.
  eexists. split; [reflexivity|]. split; reflexivity.
Qed.

(** X26: a user turned away by an owner predicate does not get
    [PermissionDenied]: on a node whose owner restriction is a predicate
    that answers false for the user of the request, [dispatch] raises the
    [TypeError] of [has_perm]; the activation is untouched. *)
Theorem dispatch_rejecting_owner_predicate (self : instance) (flow_task : loc)
    (s : Start) (f : principal -> bool) (request : HttpRequest) (kw : kwargs)
    (v : view_world) :
  w_nodes (v_flow v) !! flow_task = Some s ->
  _owner s = PyFunc f ->
  f (req_user request) = false ->
  dispatch self flow_task request kw v =
    (Raised (TypeError "get() argument after ** must be a mapping, not function"),
     mkViewWorld (log_to (v_flow v) [EvOwnerCall (req_user request)])
                 (v_act v)).
Proof.
  intros Hs Ho Hf. unfold dispatch.
  rewrite (has_perm_owner_predicate _ _ _ _ _ Hs Ho). by rewrite Hf.
Qed.

End StartViewFacts.

(** ** Template names *)

Lemma list_ascii_of_string_app (a b : string) :
  String.list_ascii_of_string (a +:+ b)
  = String.list_ascii_of_string a ++ String.list_ascii_of_string b.
Proof. induction a as [|ch a IH]; simpl; [done|]. by rewrite IH. Qed.

Lemma string_app_inv_tail (a b t : string) : a +:+ t = b +:+ t -> a = b.
Proof.
  intros Heq.
  apply (f_equal String.list_ascii_of_string) in Heq.
  rewrite !list_ascii_of_string_app in Heq.
  apply app_inv_tail in Heq.
  rewrite <- (String.string_of_list_ascii_of_string a),
          <- (String.string_of_list_ascii_of_string b).
  by rewrite Heq.
Qed.

(** X27: [get_template_names] returns two names, the template of the
    application, [<app_label>/flow/start.html], first and the template of
    viewflow, [viewflow/flow/start.html], as the fallback; the two are the
    same name exactly for the application labelled [viewflow]. *)
Theorem get_template_names_fallback (app_label : string) :
  get_template_names app_label
    = [app_label +:+ "/flow/start.html"; "viewflow/flow/start.html"]
  /\ head (get_template_names app_label)
     = Some (app_label +:+ "/flow/start.html")
  /\ last (get_template_names app_label) = Some "viewflow/flow/start.html"
  /\ (app_label +:+ "/flow/start.html" = "viewflow/flow/start.html"
      <-> app_label = "viewflow")
  /\ (NoDup (get_template_names app_label) <-> app_label <> "viewflow").
Proof.
  assert (Hsame : app_label +:+ "/flow/start.html" = "viewflow/flow/start.html"
                  <-> app_label = "viewflow").
  { split; [|by intros ->].
    intros Heq. by apply (string_app_inv_tail _ "viewflow" "/flow/start.html"). }
  split; [reflexivity|]. split; [reflexivity|]. split; [reflexivity|].
  split; [exact Hsame|].
  unfold get_template_names. rewrite NoDup_cons, list_elem_of_singleton.
  split.
  - intros [Hne _] Hl. by apply Hne, Hsame.
  - intros Hne. split; [|apply NoDup_singleton].
    intros Heq. by apply Hne, Hsame.
Qed.

(** ** The further properties at concrete inputs *)

Lemma has_perm_lookup_owner_witness :
  @default_manager_get demo_django alice_lookup = Ok "alice"
  /\ exists b : bool,
       @has_perm demo_django 0 "bob"
         (demo_world (demo_node (PyDict alice_lookup) PyNone []))
       = (Ok b, log_to (demo_world (demo_node (PyDict alice_lookup) PyNone []))
                       [EvManagerGet alice_lookup])
       /\ (b = true <-> "bob" = "alice").
Proof.
  split; [reflexivity|].
  apply (@has_perm_lookup_owner demo_django
           (demo_world (demo_node (PyDict alice_lookup) PyNone [])) 0
           (demo_node (PyDict alice_lookup) PyNone []) alice_lookup
           "alice" "bob");
    try reflexivity.
  - apply (bool_decide_eq_false_1 _). reflexivity.
  - intros a b. apply bool_decide_eq_true.
Defined.

Lemma has_perm_lookup_failure_witness :
  @default_manager_get demo_django nobody_lookup = Raise DoesNotExist
  /\ @has_perm demo_django 0 "bob"
       (demo_world (demo_node (PyDict nobody_lookup) PyNone []))
     = (Raise DoesNotExist,
        log_to (demo_world (demo_node (PyDict nobody_lookup) PyNone []))
               [EvManagerGet nobody_lookup]).
Proof.
  split; [reflexivity|].
  apply (@has_perm_lookup_failure demo_django
           (demo_world (demo_node (PyDict nobody_lookup) PyNone [])) 0
           (demo_node (PyDict nobody_lookup) PyNone []) nobody_lookup
           DoesNotExist "bob");
    try reflexivity.
  apply (bool_decide_eq_false_1 _). reflexivity.
Defined.

Lemma Available_string_owner_raises_witness :
  exists w1 : @world demo_django,
    @Available demo_django 0 (PyStr "alice") ∅
      (demo_world (demo_node PyNone PyNone [])) = (Ok 0, w1)
    /\ w_nodes w1 !! 0
       = Some (@with_owner demo_django (PyStr "alice") (demo_node PyNone PyNone []))
    /\ @has_perm demo_django 0 "alice" w1 =
         (Raise (TypeError "get() argument after ** must be a mapping, not str"),
          w1).
Proof.
  apply (@Available_string_owner_raises demo_django
           (demo_world (demo_node PyNone PyNone [])) 0
           (demo_node PyNone PyNone []) "alice" ∅ "alice");
    [reflexivity | discriminate].
Defined.

Lemma has_perm_permission_name_witness :
  @has_perm demo_django 0 "alice" (demo_world (demo_node PyNone can_start [3]))
    = (Ok true, log_to (demo_world (demo_node PyNone can_start [3]))
                       [@EvUserHasPerm demo_django "alice" can_start])
  /\ @has_perm demo_django 0 "bob" (demo_world (demo_node PyNone can_start [3]))
     = (Ok false, log_to (demo_world (demo_node PyNone can_start [3]))
                         [@EvUserHasPerm demo_django "bob" can_start]).
Proof.
  split.
  - apply (@has_perm_permission_name demo_django
             (demo_world (demo_node PyNone can_start [3])) 0
             (demo_node PyNone can_start [3]) "app.can_start" "alice");
      (reflexivity || discriminate).
  - apply (@has_perm_permission_name demo_django
             (demo_world (demo_node PyNone can_start [3])) 0
             (demo_node PyNone can_start [3]) "app.can_start" "bob");
      (reflexivity || discriminate).
Defined.

Lemma has_perm_accepting_predicate_witness :
  only_alice "alice" = true
  /\ @has_perm demo_django 0 "alice"
       (demo_world (demo_node (PyFunc only_alice) can_start []))
     = (Ok true,
        log_to (demo_world (demo_node (PyFunc only_alice) can_start []))
               [@EvOwnerCall demo_django "alice"])
  /\ @has_perm demo_django 0 "alice"
       (demo_world (demo_node PyNone (PyFunc only_alice) []))
     = (Ok true,
        log_to (demo_world (demo_node PyNone (PyFunc only_alice) []))
               [@EvPermissionCall demo_django "alice"]).
Proof.
  split; [reflexivity|]. split.
  - apply (@has_perm_accepting_predicate demo_django
             (demo_world (demo_node (PyFunc only_alice) can_start [])) 0
             (demo_node (PyFunc only_alice) can_start []) only_alice "alice");
      reflexivity.
  - apply (@has_perm_accepting_predicate demo_django
             (demo_world (demo_node PyNone (PyFunc only_alice) [])) 0
             (demo_node PyNone (PyFunc only_alice) []) only_alice "alice");
      reflexivity.
Defined.

Lemma has_perm_after_Activate_witness :
  exists (w1 : @world demo_django) (r : result bool)
         (evs : list (@event demo_django)),
    @Activate demo_django 0 3 (demo_world (demo_node PyNone can_start []))
      = (Ok 0, w1)
    /\ @has_perm demo_django 0 "bob" (demo_world (demo_node PyNone can_start []))
       = (r, log_to (demo_world (demo_node PyNone can_start [])) evs)
    /\ @has_perm demo_django 0 "bob" w1 = (r, log_to w1 evs).
Proof.
  apply (@has_perm_after_Activate demo_django
           (demo_world (demo_node PyNone can_start [])) 0 3
           (demo_node PyNone can_start []) "bob").
  reflexivity.
Defined.

Lemma Available_owner_shadows_lookup_witness :
  @Available demo_django 0 (PyFunc only_alice) alice_lookup
    (demo_world (demo_node PyNone PyNone []))
  = @Available demo_django 0 (PyFunc only_alice) ∅
      (demo_world (demo_node PyNone PyNone []))
  /\ exists w1 : @world demo_django,
       @Available demo_django 0 (PyFunc only_alice) alice_lookup
         (demo_world (demo_node PyNone PyNone [])) = (Ok 0, w1)
       /\ w_nodes w1 !! 0
          = Some (@with_owner demo_django (PyFunc only_alice)
                    (demo_node PyNone PyNone [])).
Proof.
  apply (@Available_owner_shadows_lookup demo_django
           (demo_world (demo_node PyNone PyNone [])) 0
           (demo_node PyNone PyNone []) (PyFunc only_alice) alice_lookup);
    reflexivity.
Defined.

Lemma wiring_last_call_wins_witness :
  (let* r := @Available demo_django 0 (PyFunc only_alice) ∅ in
   @Available demo_django r PyNone alice_lookup) (demo_world (demo_node PyNone PyNone []))
  = @Available demo_django 0 PyNone alice_lookup
      (demo_world (demo_node PyNone PyNone []))
  /\ (let* r := @Permission demo_django 0 (PyFunc only_alice) None in
      @Permission demo_django r can_start None) (demo_world (demo_node PyNone PyNone []))
     = @Permission demo_django 0 can_start None
         (demo_world (demo_node PyNone PyNone [])).
Proof.
  apply (@wiring_last_call_wins demo_django
           (demo_world (demo_node PyNone PyNone [])) 0
           (demo_node PyNone PyNone [])
           (PyFunc only_alice) PyNone ∅ alice_lookup
           (PyFunc only_alice) can_start None None).
  reflexivity.
Defined.

Lemma wiring_commutes_witness :
  (let* r := @Available demo_django 0 PyNone alice_lookup in
   @Permission demo_django r can_start None) (demo_world (demo_node PyNone PyNone []))
  = (let* r := @Permission demo_django 0 can_start None in
     @Available demo_django r PyNone alice_lookup) (demo_world (demo_node PyNone PyNone []))
  /\ (let* r := @Activate demo_django 0 3 in @Available demo_django r PyNone alice_lookup)
       (demo_world (demo_node PyNone PyNone []))
     = (let* r := @Available demo_django 0 PyNone alice_lookup in @Activate demo_django r 3)
         (demo_world (demo_node PyNone PyNone []))
  /\ (let* r := @Activate demo_django 0 3 in @Permission demo_django r can_start None)
       (demo_world (demo_node PyNone PyNone []))
     = (let* r := @Permission demo_django 0 can_start None in @Activate demo_django r 3)
         (demo_world (demo_node PyNone PyNone [])).
Proof.
  apply (@wiring_commutes demo_django
           (demo_world (demo_node PyNone PyNone [])) 0 3
           (demo_node PyNone PyNone []) PyNone alice_lookup can_start None).
  reflexivity.
Defined.

Lemma wiring_frame_witness :
  w_nodes two_node_world !! 1 = Some (demo_node PyNone can_start [])
  /\ Forall (fun w1 : @world demo_django =>
               w_nodes w1 !! 1 = w_nodes two_node_world !! 1
               /\ w_next w1 = w_next two_node_world
               /\ w_log w1 = w_log two_node_world)
       [snd (@Activate demo_django 0 1 two_node_world);
        snd (@Available demo_django 0 PyNone alice_lookup two_node_world);
        snd (@Permission demo_django 0 can_start None two_node_world)].
Proof.
  split; [reflexivity|].
  apply (@wiring_frame demo_django two_node_world 0 1 1
           (demo_node PyNone PyNone []) PyNone alice_lookup can_start None);
    [reflexivity | discriminate].
Defined.

Lemma outgoing_after_Activate_witness :
  exists w1 : @world demo_django,
    @Activate_chain demo_django 0 [4; 2; 3]
      (demo_world (demo_node PyNone PyNone [])) = (Ok 0, w1)
    /\ @_outgoing demo_django 0 w1 =
         (Ok [mkEdge 0 4 "next"; mkEdge 0 2 "next"; mkEdge 0 3 "next"], w1).
Proof.
  apply (@outgoing_after_Activate demo_django
           (demo_world (demo_node PyNone PyNone [])) 0
           (demo_node PyNone PyNone []) [4; 2; 3]).
  reflexivity.
Defined.

Lemma constructed_node_always_warns_witness :
  exists s : @Start demo_django,
    w_nodes (snd (@Start_new demo_django (Some (ViewClass StartView_cls)) None ∅
                    empty_world)) !! 0 = Some s
    /\ is_Some (activation_cls s)
    /\ @__call__ demo_django
         (__get__ (flow_start_view (Function "dispatch"))
                  (Some start_view_instance))
         demo_request 0 ∅
         (snd (@Start_new demo_django (Some (ViewClass StartView_cls)) None ∅
                 empty_world)) =
         (Ok (ResponseOf (BoundMethod "dispatch" start_view_instance)
                         [ArgRequest demo_request] ∅),
          log_to (snd (@Start_new demo_django (Some (ViewClass StartView_cls))
                         None ∅ empty_world))
            [EvWarn (warning_text (name s)) "RuntimeWarning";
             EvInitialize 7 0;
             EvCallView (BoundMethod "dispatch" start_view_instance)
                        [ArgRequest demo_request] ∅]).
Proof.
  apply (@constructed_node_always_warns demo_django
           (Some (ViewClass StartView_cls)) None ∅ ∅ empty_world
           (snd (@Start_new demo_django (Some (ViewClass StartView_cls)) None ∅
                   empty_world))
           0 (Function "dispatch") start_view_instance demo_request);
    reflexivity.
Defined.

Lemma prepare_without_data_witness :
  @prepare demo_forms None demo_activation =
    (Ok tt,
     mkActWorld
       (with_management_form (mkForm ManagementForm_cls None (Some 5))
                             (a_self demo_activation))
       [AevPrepared; AevFormInit (mkForm ManagementForm_cls None (Some 5))])
  /\ @prepare demo_forms (Some ∅) demo_activation =
       (Ok tt,
        mkActWorld
          (with_management_form (mkForm ManagementForm_cls (Some ∅) (Some 5))
                                (a_self demo_activation))
          [AevPrepared; AevFormInit (mkForm ManagementForm_cls (Some ∅) (Some 5))]).
Proof.
  split.
  - apply (@prepare_without_data demo_forms demo_activation None
             ManagementForm_cls); reflexivity.
  - apply (@prepare_without_data demo_forms demo_activation (Some ∅)
             ManagementForm_cls); reflexivity.
Defined.

Lemma prepare_binds_own_form_witness :
  management_form (a_self (snd (@prepare demo_forms invalid_data
                                  own_form_activation)))
    = Some (mkForm ManagementForm_cls invalid_data (Some 5))
  /\ flow_cls (a_self (snd (@prepare demo_forms invalid_data
                              own_form_activation))) = None.
Proof.
  apply (@prepare_binds_own_form demo_forms own_form_activation invalid_data
           ManagementForm_cls).
  reflexivity.
Defined.

Lemma prepare_without_form_cls_witness :
  @prepare demo_forms valid_data uninitialised_activation =
    (Raise (AttributeError
              "'NoneType' object has no attribute 'management_form_cls'"),
     mkActWorld (a_self uninitialised_activation) [AevPrepared])
  /\ @prepare demo_forms valid_data bare_flow_activation =
       (Raise (TypeError "'NoneType' object is not callable"),
        mkActWorld (a_self bare_flow_activation) [AevPrepared]).
Proof.
  split.
  - apply (@prepare_without_form_cls demo_forms uninitialised_activation
             valid_data eq_refl).
    reflexivity.
  - apply (proj2 (@prepare_without_form_cls demo_forms bare_flow_activation
                    valid_data eq_refl) (mkFlow "BareFlow" None));
      reflexivity.
Defined.

Lemma prepare_then_invalid_witness :
  exists w' : act_world,
    (let* _ := @prepare demo_forms None in @prepare demo_forms invalid_data)
      demo_activation =
      (Raise (FlowRuntimeError
                "Activation metadata is broken started: This field is required."),
       w')
    /\ task (a_self w') = Some 5
    /\ a_log w' =
         [] ++ [AevPrepared;
                AevFormInit (mkForm ManagementForm_cls None (Some 5));
                AevPrepared;
                AevFormInit (mkForm ManagementForm_cls invalid_data (Some 5));
                AevIsValid (mkForm ManagementForm_cls invalid_data (Some 5))].
Proof.
  apply (@prepare_then_invalid demo_forms demo_activation invalid_data
           ManagementForm_cls);
    reflexivity.
Defined.

Lemma dispatch_denied_witness :
  @dispatch demo_django demo_forms start_view_instance 0 demo_request ∅
    (demo_view_world (demo_node PyNone can_start []))
  = (PermissionDenied,
     @mkViewWorld demo_django
       (snd (@has_perm demo_django 0 "bob"
               (demo_world (demo_node PyNone can_start []))))
       demo_activation).
Proof.
  apply (@dispatch_denied demo_django demo_forms start_view_instance 0
           demo_request ∅ (demo_view_world (demo_node PyNone can_start []))).
  reflexivity.
Defined.


Lemma dispatch_invalid_post_witness :
  exists aw : act_world,
    @dispatch demo_django demo_forms start_view_instance 0
      (post_request {[ "finished" := "2014-05-01" ]}) ∅
      (demo_view_world (demo_node PyNone can_start []))
    = (Raised (FlowRuntimeError
         "Activation metadata is broken started: This field is required."),
       @mkViewWorld demo_django
         (snd (@has_perm demo_django 0 "alice"
                 (demo_world (demo_node PyNone can_start []))))
         aw)
    /\ task (a_self aw) = Some 5.
Proof.
  apply (@dispatch_invalid_post demo_django demo_forms start_view_instance 0
           (post_request {[ "finished" := "2014-05-01" ]}) ∅
           (demo_view_world (demo_node PyNone can_start []))
           ManagementForm_cls);
    try reflexivity.
  apply (bool_decide_eq_false_1 _). reflexivity.
Defined.

Lemma dispatch_valid_post_witness :
  exists aw : act_world,
    @dispatch demo_django demo_forms start_view_instance 0
      (post_request {[ "started" := "2014-05-01" ]}) ∅
      (demo_view_world (demo_node PyNone can_start []))
    = (Returned (ResponseOf (BoundMethod "UpdateView.dispatch" start_view_instance)
                   [ArgRequest (post_request {[ "started" := "2014-05-01" ]})] ∅),
       @mkViewWorld demo_django
         (log_to (snd (@has_perm demo_django 0 "alice"
                         (demo_world (demo_node PyNone can_start []))))
            [EvCallView (BoundMethod "UpdateView.dispatch" start_view_instance)
               [ArgRequest (post_request {[ "started" := "2014-05-01" ]})] ∅])
         aw)
    /\ task (a_self aw) = Some 6
    /\ management_form (a_self aw)
       = Some (mkForm ManagementForm_cls
                      (Some {[ "started" := "2014-05-01" ]}) (Some 5)).
Proof.
  exact (@dispatch_valid_post demo_django demo_forms start_view_instance 0
           (post_request {[ "started" := "2014-05-01" ]}) ∅
           (demo_view_world (demo_node PyNone can_start []))
           ManagementForm_cls eq_refl eq_refl
           (bool_decide_eq_false_1
              (req_POST (post_request {[ "started" := "2014-05-01" ]}) = ∅)
              eq_refl)
           eq_refl).
Defined.

Lemma dispatch_rejecting_owner_predicate_witness :
  only_alice "bob" = false
  /\ @dispatch demo_django demo_forms start_view_instance 0 demo_request ∅
       (demo_view_world (demo_node (PyFunc only_alice) PyNone []))
     = (Raised (TypeError "get() argument after ** must be a mapping, not function"),
        @mkViewWorld demo_django
          (log_to (demo_world (demo_node (PyFunc only_alice) PyNone []))
                  [@EvOwnerCall demo_django "bob"])
          demo_activation).
Proof.
  split; [reflexivity|].
  apply (@dispatch_rejecting_owner_predicate demo_django demo_forms
           start_view_instance 0 (demo_node (PyFunc only_alice) PyNone [])
           only_alice demo_request ∅
           (demo_view_world (demo_node (PyFunc only_alice) PyNone [])));
    reflexivity.
Defined.
